(** * dccautomation: launching, handshake and remote test execution

    A shallow embedding of [dccautomation/common.py],
    [dccautomation/bootstrap.py] and [dccautomation/testcase.py].

    Python code that touches the outside world (the process environment,
    sockets, child processes, the exit-hook registry, the remote client) is
    written in a state-and-exception monad over an explicit [World]; every
    such effect is appended to the world's [trace], so that statements such
    as "the socket is closed after the reply" become statements about lists
    of events. *)

From Stdlib Require Import ZArith Ascii String List Lia.
From stdpp Require Import base option list strings countable gmap fin_maps.

(** ** Python values, exceptions and outcomes *)

Module Py.

(** The two kinds of values that [common.py] binds: integers and strings. *)
Inductive pyval :=
| PyInt (z : Z)
| PyStr (s : string).

#[global] Instance pyval_eq_dec : EqDecision pyval.
Proof. solve_decision. Defined.

#[global] Instance pyval_countable : Countable pyval.
Proof.
refine (inj_countable'
  (fun v => match v with PyInt z => inl z | PyStr s => inr s end)
  (fun x => match x with inl z => PyInt z | inr s => PyStr s end) _).
intros []; reflexivity.
Defined.

(** The exceptions that the embedded code raises itself, [OtherError] for
    any other subclass of [Exception] that user code or a library raises,
    and the two that are not subclasses of [Exception]. *)
Inductive exn :=
| AttributeError (attr : string)
| RuntimeError (msg : string)
| AssertionError (msg : string)
| UnboundLocalError (name : string)
| ValueError (msg : string)
| SystemError (msg : string)
| OtherError (msg : string)
| KeyboardInterrupt
| SystemExit.

(** [isinstance(e, Exception)]: what [except Exception:] catches. *)
Definition is_Exception (e : exn) : bool :=
  match e with
  | KeyboardInterrupt | SystemExit => false
  | _ => true
  end.

#[global] Instance exn_eq_dec : EqDecision exn.
Proof. solve_decision. Defined.

(** How a call ends.  [Hang] is a call that blocks for ever (a [recv] on a
    socket nobody writes to); [OutOfFuel] is the embedding's own answer when
    a [while] loop was given too few iterations. *)
Inductive outcome (A : Type) :=
| Return (a : A)
| Raise (e : exn)
| Hang
| OutOfFuel.

Arguments Return {A} a.
Arguments Raise {A} e.
Arguments Hang {A}.
Arguments OutOfFuel {A}.

Definition finished {A} (o : outcome A) : bool :=
  match o with
  | Return _ | Raise _ => true
  | Hang | OutOfFuel => false
  end.

(** State-and-exception monad over a state [S]. *)
Definition M (S A : Type) : Type := S -> outcome A * S.

Definition ret {S A} (a : A) : M S A := fun s => (Return a, s).

Definition raise {S A} (e : exn) : M S A := fun s => (Raise e, s).

Definition bind {S A B} (c : M S A) (k : A -> M S B) : M S B :=
  fun s =>
    match c s with
    | (Return a, s') => k a s'
    | (Raise e, s') => (Raise e, s')
    | (Hang, s') => (Hang, s')
    | (OutOfFuel, s') => (OutOfFuel, s')
    end.

Definition gets {S A} (f : S -> A) : M S A := fun s => (Return (f s), s).

Definition modify {S} (f : S -> S) : M S unit := fun s => (Return tt, f s).

(** [try: body finally: handler].  The handler runs when the body returned
    or raised; an exception of the handler replaces the body's outcome,
    otherwise the body's outcome stands. *)
Definition try_finally {S A} (body : M S A) (handler : M S unit) : M S A :=
  fun s =>
    match body s with
    | (Hang, s') => (Hang, s')
    | (OutOfFuel, s') => (OutOfFuel, s')
    | (o, s') =>
        match handler s' with
        | (Return _, s'') => (o, s'')
        | (Raise e, s'') => (Raise e, s'')
        | (Hang, s'') => (Hang, s'')
        | (OutOfFuel, s'') => (OutOfFuel, s'')
        end
    end.

(** [with mgr as x: body].  [enter] is [mgr.__enter__()]; when it raises,
    [__exit__] is not called.  [exit] receives [None] or the exception of
    the body and returns the truth value of what [__exit__] returned: a
    true value swallows the exception, and the statement then produces no
    value ([None] here). *)
Definition with_stmt {S X A} (enter : M S X)
    (exit : option exn -> M S bool) (body : X -> M S A) : M S (option A) :=
  bind enter (fun x s =>
    match body x s with
    | (Return a, s') => bind (exit None) (fun _ => ret (Some a)) s'
    | (Raise e, s') =>
        bind (exit (Some e))
          (fun swallow => if swallow then ret None else raise e) s'
    | (Hang, s') => (Hang, s')
    | (OutOfFuel, s') => (OutOfFuel, s')
    end).

(** *** Strings *)

Definition LF : string := String "010"%char EmptyString.
Definition DQUOTE : string := String "034"%char EmptyString.

(** [sep.join(parts)] *)
Fixpoint join (sep : string) (parts : list string) : string :=
  match parts with
  | [] => ""
  | [p] => p
  | p :: ps => p +:+ sep +:+ join sep ps
  end.

(** [s.replace(old, new)] for one-character [old] and [new]. *)
Fixpoint replace (old new : ascii) (s : string) : string :=
  match s with
  | EmptyString => EmptyString
  | String c s' =>
      String (if Ascii.eqb c old then new else c) (replace old new s')
  end.

(** Keyword arguments of a call, in the order written. *)
Fixpoint kwarg (kwargs : list (string * string)) (name : string)
  : option string :=
  match kwargs with
  | [] => None
  | (k, v) :: rest => if String.eqb k name then Some v else kwarg rest name
  end.

(** [template.format] with positional and keyword arguments, for replacement fields that are empty
    ([{}], filled from [args] in turn) or a keyword ([{name}]), with the
    escapes [{{] and [}}].  [None] stands for the exception Python raises on
    a malformed template, a missing argument or an unknown keyword. *)
Inductive fmt_state :=
| FmtText
| FmtOpen
| FmtField (name : string)
| FmtClose.

Fixpoint format_from (st : fmt_state) (template : string)
    (args : list string) (kwargs : list (string * string)) : option string :=
  match template with
  | EmptyString =>
      match st with
      | FmtText => Some EmptyString
      | _ => None
      end
  | String c rest =>
      match st with
      | FmtText =>
          if Ascii.eqb c "{" then format_from FmtOpen rest args kwargs
          else if Ascii.eqb c "}" then format_from FmtClose rest args kwargs
          else String c <$> format_from FmtText rest args kwargs
      | FmtOpen =>
          if Ascii.eqb c "{" then
            String c <$> format_from FmtText rest args kwargs
          else if Ascii.eqb c "}" then
            match args with
            | a :: args' =>
                String.append a <$> format_from FmtText rest args' kwargs
            | [] => None
            end
          else format_from (FmtField (String c EmptyString)) rest args kwargs
      | FmtField name =>
          if Ascii.eqb c "}" then
            match kwarg kwargs name with
            | Some v => String.append v <$> format_from FmtText rest args kwargs
            | None => None
            end
          else
            format_from (FmtField (name +:+ String c EmptyString)) rest
              args kwargs
      | FmtClose =>
          if Ascii.eqb c "}" then
            String c <$> format_from FmtText rest args kwargs
          else None
      end
  end.

Definition format (template : string) (args : list string)
    (kwargs : list (string * string)) : option string :=
  format_from FmtText template args kwargs.

End Py.

Import Py.

Declare Scope py_scope.
Delimit Scope py_scope with py.
Notation "x <- c ;; k" := (bind c (fun x => k))
  (at level 100, c at next level, k at level 200, right associativity) : py_scope.
Notation "c ;; k" := (bind c (fun _ => k))
  (at level 100, k at level 200, right associativity) : py_scope.
Open Scope py_scope.

(** ** common.py *)

Module common.

Definition SUCCESS : Z := 200.
Definition INVALID_METHOD : Z := 400.
Definition UNHANDLED_ERROR : Z := 503.

Definition ENV_CONFIGNAME : string := "DCCAUTO_CONFIGNAME".
Definition ENV_HANDSHAKE : string := "DCCAUTO_HANDSHAKE".

(** The names the module binds, in source order. *)
Definition bindings : list (string * pyval) :=
  [ ("SUCCESS", PyInt SUCCESS);
    ("INVALID_METHOD", PyInt INVALID_METHOD);
    ("UNHANDLED_ERROR", PyInt UNHANDLED_ERROR);
    ("ENV_CONFIGNAME", PyStr ENV_CONFIGNAME);
    ("ENV_HANDSHAKE", PyStr ENV_HANDSHAKE) ].

(** The module object as other modules see it: [common.NAME] is a lookup. *)
Definition namespace : gmap string pyval := list_to_map bindings.

(** The status codes are the integers the module binds. *)
Definition status_codes : list (string * Z) :=
  omap (fun b => match b.2 with PyInt z => Some (b.1, z) | PyStr _ => None end)
       bindings.

End common.

(** ** The driver's world *)

Abbreviation Env := (gmap pyval string).

(** A reference to a dictionary object: [os.environ] itself, or a dictionary
    made by [dict(...)]. *)
Inductive DictRef :=
| OsEnviron
| DictAt (i : nat).

(** Modelled from the spec: the launch configuration (configs.py is not
    among the sources), an immutable value with a name and the arguments for
    spawning.  The code calls them [cfgname()] and [popen_args()]. *)
Record Config := mkConfig {
  cfgname : string;
  popen_args : list string
}.

(** What the driver does to the outside world, in the order it happens. *)
Inductive Event :=
| EvBind (sock : nat) (address : string)
| EvRecv (sock : nat) (msg : string)
| EvSend (sock : nat) (msg : string)
| EvClose (sock : nat)
| EvPopen (pid : nat) (args : list string) (env : Env)
| EvAtexitKill (pid : nat)
| EvConnect (address : option string)
| EvExec (code : string).

Module utils.

(** The value of [utils.create_rep_socket_bound_to_random()]. *)
Record SocketInfo := mkSocketInfo {
  socket : nat;
  endpoint : string
}.

End utils.

(** The fields [Handshaker.__init__] sets. *)
Record HandshakerObj := mkHandshaker {
  _config : Config;
  _environ : DictRef;
  _handshake_info : option utils.SocketInfo;
  app_endpoint : option string
}.

(** The driver process and what it has done: its environment, the
    dictionaries and handshaker objects it has allocated (a reference is an
    index), the next free socket and process numbers, and the effects so
    far, oldest first. *)
Record World := mkWorld {
  os_environ : Env;
  dicts : list Env;
  handshakers : list HandshakerObj;
  next_socket : nat;
  next_pid : nat;
  trace : list Event
}.

(** What the driver cannot decide: the platform's path functions, where the
    two packages are installed, the address the operating system picks for
    a socket, whether spawning fails, which message (if any) arrives on a
    socket, and how the server answers a request. *)
Record Host := mkHost {
  dirname : string -> string;
  pathsep : string;
  bootstrap_file : string;
  zmq_file : string;
  ephemeral_address : nat -> string;
  popen_error : list string -> Env -> option exn;
  arrives : list Event -> nat -> option string;
  exec_reply : list Event -> string -> outcome unit
}.

Definition log (e : Event) : M World unit :=
  modify (fun w => mkWorld (os_environ w) (dicts w) (handshakers w)
                     (next_socket w) (next_pid w) (trace w ++ [e])).

(** The entries of the dictionary [d] refers to. *)
Definition dict_items (d : DictRef) : M World Env :=
  fun w =>
    match d with
    | OsEnviron => (Return (os_environ w), w)
    | DictAt i =>
        match dicts w !! i with
        | Some items => (Return items, w)
        | None => (Raise (SystemError "dangling dict"), w)
        end
    end.

(** [dict(items)]: a new dictionary with these entries. *)
Definition dict_new (items : Env) : M World DictRef :=
  fun w =>
    (Return (DictAt (length (dicts w))),
     mkWorld (os_environ w) (dicts w ++ [items]) (handshakers w)
       (next_socket w) (next_pid w) (trace w)).

(** [d[key] = value] *)
Definition dict_setitem (d : DictRef) (key : pyval) (value : string)
  : M World unit :=
  fun w =>
    match d with
    | OsEnviron =>
        (Return tt,
         mkWorld (<[key:=value]> (os_environ w)) (dicts w) (handshakers w)
           (next_socket w) (next_pid w) (trace w))
    | DictAt i =>
        match dicts w !! i with
        | Some items =>
            (Return tt,
             mkWorld (os_environ w) (<[i:=<[key:=value]> items]> (dicts w))
               (handshakers w) (next_socket w) (next_pid w) (trace w))
        | None => (Raise (SystemError "dangling dict"), w)
        end
    end.

(** [d.get(key, default)] *)
Definition dict_get (d : DictRef) (key : pyval) (dflt : string)
  : M World string :=
  items <- dict_items d ;; ret (default dflt (items !! key)).

(** [module.name] *)
Definition getattr (module : gmap string pyval) (name : string)
  : M World pyval :=
  match module !! name with
  | Some v => ret v
  | None => raise (AttributeError name)
  end.

(** Modelled from the spec: [utils.create_rep_socket_bound_to_random]
    (utils.py is not among the sources) binds a new reply socket to an
    address the operating system picks and returns the socket with that
    address. *)
Definition create_rep_socket_bound_to_random (host : Host)
  : M World utils.SocketInfo :=
  fun w =>
    let s := next_socket w in
    let address := ephemeral_address host s in
    (Return (utils.mkSocketInfo s address),
     mkWorld (os_environ w) (dicts w) (handshakers w)
       (S s) (next_pid w) (trace w ++ [EvBind s address])).

(** [socket.recv()] returns the message that arrives, and never returns
    when none does.  Errors of the socket itself (on [recv], [send] or
    [close]) are not part of this model. *)
Definition socket_recv (host : Host) (s : nat) : M World string :=
  fun w =>
    match arrives host (trace w) s with
    | Some msg => (log (EvRecv s msg) ;; ret msg) w
    | None => (Hang, w)
    end.

Definition socket_send (s : nat) (msg : string) : M World unit :=
  log (EvSend s msg).

Definition socket_close (s : nat) : M World unit :=
  log (EvClose s).

(** [subprocess.Popen(args, env=env)]: the child gets the entries the
    dictionary has at this moment. *)
Definition Popen (host : Host) (args : list string) (env : DictRef)
  : M World nat :=
  items <- dict_items env ;;
  match popen_error host args items with
  | Some e => raise e
  | None =>
      fun w =>
        let pid := next_pid w in
        (Return pid,
         mkWorld (os_environ w) (dicts w) (handshakers w)
           (next_socket w) (S pid) (trace w ++ [EvPopen pid args items]))
  end.

(** [atexit.register(proc.kill)] *)
Definition atexit_register_kill (pid : nat) : M World unit :=
  log (EvAtexitKill pid).

(** ** bootstrap.py *)

Module bootstrap.

Definition _one_up_dir (host : Host) (f : string) : string :=
  dirname host (dirname host f).

Record ServerProc := mkServerProc {
  popen : nat;
  endpoint : option string;
  config : Config
}.

Module Handshaker.

(** A handshaker is an object in the store: [self] is its index, [load]
    reads its fields and [store] writes them. *)
Definition load (self : nat) : M World HandshakerObj :=
  fun w =>
    match handshakers w !! self with
    | Some h => (Return h, w)
    | None => (Raise (SystemError "dangling object"), w)
    end.

Definition store (self : nat) (h : HandshakerObj) : M World unit :=
  modify (fun w => mkWorld (os_environ w) (dicts w)
                     (<[self:=h]> (handshakers w))
                     (next_socket w) (next_pid w) (trace w)).

Definition __init__ (config : Config) (environ : DictRef) : M World nat :=
  fun w =>
    (Return (length (handshakers w)),
     mkWorld (os_environ w) (dicts w)
       (handshakers w ++ [mkHandshaker config environ None None])
       (next_socket w) (next_pid w) (trace w)).

(** [common] is the module object bootstrap.py imports: [common.NAME] is
    looked up in it when the line runs. *)
Definition __enter__ (common : gmap string pyval) (host : Host) (self : nat)
  : M World nat :=
  info <- create_rep_socket_bound_to_random host ;;
  h <- load self ;;
  store self
    (mkHandshaker (_config h) (_environ h) (Some info) (app_endpoint h)) ;;
  h <- load self ;;
  match _handshake_info h with
  | None => raise (AttributeError "endpoint")
  | Some hi =>
      key <- getattr common "ENV_HANDSHAKE_ENDPOINT" ;;
      dict_setitem (_environ h) key (utils.endpoint hi) ;;
      h <- load self ;;
      key <- getattr common "ENV_CONFIGNAME" ;;
      dict_setitem (_environ h) key (cfgname (_config h)) ;;
      ret self
  end.

(** The result is the truth value of what the method returns; it returns
    [None] on every path. *)
Definition __exit__ (host : Host) (self : nat) (exc_type : option exn)
  : M World bool :=
  match exc_type with
  | None =>
      h <- load self ;;
      match _handshake_info h with
      | None => raise (AttributeError "socket")
      | Some hi =>
          msg <- socket_recv host (utils.socket hi) ;;
          h <- load self ;;
          store self
            (mkHandshaker (_config h) (_environ h) (_handshake_info h)
               (Some msg)) ;;
          h <- load self ;;
          match _handshake_info h with
          | None => raise (AttributeError "socket")
          | Some hi =>
              socket_send (utils.socket hi) "" ;;
              h <- load self ;;
              match _handshake_info h with
              | None => raise (AttributeError "socket")
              | Some hi => socket_close (utils.socket hi) ;; ret false
              end
          end
      end
  | Some _ => ret false
  end.

End Handshaker.

(** [env] is a reference to the copy [dict(os.environ)]; the handshaker
    holds the same reference, so the body of the [with] sees the entries
    [__enter__] wrote, and [handshake] is the manager itself. *)
Definition start_server_process (common : gmap string pyval) (host : Host)
    (config : Config) : M World ServerProc :=
  items <- dict_items OsEnviron ;;
  env <- dict_new items ;;
  mgr <- Handshaker.__init__ config env ;;
  bound <- with_stmt (Handshaker.__enter__ common host mgr)
             (Handshaker.__exit__ host mgr)
             (fun handshake =>
                pythonpath <- dict_get env (PyStr "PYTHONPATH") "" ;;
                match
                  format "{}{sep}{}{sep}{}"
                    [pythonpath;
                     _one_up_dir host (bootstrap_file host);
                     _one_up_dir host (zmq_file host)]
                    [("sep", pathsep host)]
                with
                | None => raise (ValueError "format")
                | Some value =>
                    dict_setitem env (PyStr "PYTHONPATH") value ;;
                    proc <- Popen host (popen_args config) env ;;
                    atexit_register_kill proc ;;
                    ret (proc, handshake)
                end) ;;
  match bound with
  | None => raise (UnboundLocalError "proc")
  | Some (proc, handshake) =>
      h <- Handshaker.load handshake ;;
      ret (mkServerProc proc (app_endpoint h) config)
  end.

End bootstrap.

(** ** testcase.py *)

Module testcase.

(** Modelled from the spec: the client (client.py is not among the
    sources).
    Creating one connects to the endpoint of the server process;
    [exec_] sends one request with the code and ends as the server's reply
    says. *)
Record Client := mkClient {
  client_proc : bootstrap.ServerProc
}.

Definition Client__init__ (proc : bootstrap.ServerProc) : M World Client :=
  log (EvConnect (bootstrap.endpoint proc)) ;; ret (mkClient proc).

Definition exec_ (host : Host) (client : Client) (code : string)
  : M World unit :=
  fun w => (log (EvExec code) ;; (fun w' => (exec_reply host (trace w) code, w'))) w.

(** The class attributes [create_client] reads.  [config] is [None] or a
    class; the class is given by what calling it yields. *)
Record RemoteTestCaseClass := mkClass {
  config : option (outcome Config);
  start_proc : bool
}.

Definition create_client (common : gmap string pyval) (host : Host)
    (cls : RemoteTestCaseClass) : M World Client :=
  match config cls with
  | None =>
      raise (RuntimeError
               "config must be set or this method must be overridden.")
  | Some new_config =>
      config <- (fun w => (new_config, w)) ;;
      (if start_proc cls then ret tt
       else raise (AssertionError "Not starting proc is not yet supported.")) ;;
      proc <- bootstrap.start_server_process common host config ;;
      Client__init__ proc
  end.

Section Instances.

(** [U] is whatever else a test case object holds, [Cleanup] a registered
    [(function, args, kwargs)] triple, [Module_] a module object. *)
Context {U Cleanup Module_ : Type}.

Record TestCaseObj := mkTestCase {
  __module__ : string;
  __name__ : string;
  reload_test : bool;
  reload_modules : list Module_;
  _testMethodName : option string;
  _RemoteTestCase__testMethodName : option string;
  _cleanups : list Cleanup;
  attrs : U
}.

(** [str(x)] for a string or [None]. *)
Definition str (x : option string) : string := default "None" x.

Definition set__testMethodName (v : option string) (self : TestCaseObj)
  : TestCaseObj :=
  mkTestCase (__module__ self) (__name__ self) (reload_test self)
    (reload_modules self) (_testMethodName self) v (_cleanups self)
    (attrs self).

Definition set_testMethodName (v : option string) (self : TestCaseObj)
  : TestCaseObj :=
  mkTestCase (__module__ self) (__name__ self) (reload_test self)
    (reload_modules self) v (_RemoteTestCase__testMethodName self)
    (_cleanups self) (attrs self).

Definition set_cleanups (v : list Cleanup) (self : TestCaseObj)
  : TestCaseObj :=
  mkTestCase (__module__ self) (__name__ self) (reload_test self)
    (reload_modules self) (_testMethodName self)
    (_RemoteTestCase__testMethodName self) v (attrs self).

(** *** On the driver *)

(** The driver's state while a test runs: the test case object and the
    world. *)
Definition on_self {A} (c : M TestCaseObj A) : M (TestCaseObj * World) A :=
  fun s => let (o, self') := c s.1 in (o, (self', s.2)).

Definition on_world {A} (c : M World A) : M (TestCaseObj * World) A :=
  fun s => let (o, w') := c s.2 in (o, (s.1, w')).

Definition _wrapped_test (host : Host) (client : Client)
  : M (TestCaseObj * World) unit :=
  self <- gets fst ;;
  let lines :=
    ["import {testmodule} as {testalias}";
     "from dccautomation.compat import reload"] in
  let lines :=
    if reload_test self then lines ++ ["reload({testalias})"]
    else lines in
  let lines :=
    lines ++ ["tc = {testalias}.{testcase}(" +:+ DQUOTE +:+ "{testfunc}"
              +:+ DQUOTE +:+ ")"] in
  let lines := lines ++ ["tc._wrapped_test_remote()"] in
  let teststr := join LF lines in
  match
    format teststr []
      [("testmodule", __module__ self);
       ("testalias", replace "." "_" (__module__ self));
       ("testcase", __name__ self);
       ("testfunc", str (_RemoteTestCase__testMethodName self))]
  with
  | None => raise (ValueError "format")
  | Some formatted_str => on_world (exec_ host client formatted_str)
  end.

(** The function [run] installs in place of the test method. *)
Definition wrapped_test (host : Host) (client : Client)
  : M (TestCaseObj * World) unit :=
  on_self (modify (fun self => set__testMethodName (_testMethodName self) self)) ;;
  try_finally (_wrapped_test host client)
    (on_self (modify (fun self =>
       set_testMethodName (_RemoteTestCase__testMethodName self) self))).

(** *** On the server *)

(** A method of the test case, written by the user: it may change any
    attribute of the object (register cleanups among them), return, raise or
    never return. *)
Definition method : Type := M TestCaseObj unit.

Record UserCode := mkUserCode {
  setUp : method;
  tearDown : method;
  test_method : string -> option method;
  call : Cleanup -> method;
  reload : Module_ -> method
}.

(** The calls [_wrapped_test_remote] makes, in order. *)
Inductive Call :=
| CallReload (m : Module_)
| CallSetUp
| CallTest (name : string)
| CallTearDown
| CallCleanup (c : Cleanup).

Record Run := mkRun {
  self : TestCaseObj;
  calls : list Call
}.

Definition invoke (c : Call) (m : method) : M Run unit :=
  fun r => let (o, self') := m (self r) in (o, mkRun self' (calls r ++ [c])).

(** [for mod in mods: reload(mod)] *)
Fixpoint reload_loop (code : UserCode) (mods : list Module_) : M Run unit :=
  match mods with
  | [] => ret tt
  | m :: mods' => invoke (CallReload m) (reload code m) ;; reload_loop code mods'
  end.

(** [self.setUp(); getattr(self, self._testMethodName)()] *)
Definition try_block (code : UserCode) : M Run unit :=
  invoke CallSetUp (setUp code) ;;
  name <- gets (fun r => _testMethodName (self r)) ;;
  match name with
  | None => raise (OtherError "getattr(): attribute name must be string")
  | Some name =>
      match test_method code name with
      | None => raise (AttributeError name)
      | Some m => invoke (CallTest name) m
      end
  end.

(** [while self._cleanups:] pop the last registered triple and call its
    function with its arguments; at most [fuel] iterations. *)
Fixpoint cleanup_loop (code : UserCode) (fuel : nat) : M Run unit :=
  fun r =>
    match last (_cleanups (self r)) with
    | None => (Return tt, r)
    | Some c =>
        match fuel with
        | 0 => (OutOfFuel, r)
        | S fuel' =>
            (modify (fun r => mkRun (set_cleanups
                                       (removelast (_cleanups (self r)))
                                       (self r)) (calls r)) ;;
             invoke (CallCleanup c) (call code c) ;;
             cleanup_loop code fuel') r
        end
    end.

Definition _wrapped_test_remote (code : UserCode) (fuel : nat) : M Run unit :=
  mods <- gets (fun r => reload_modules (self r)) ;;
  reload_loop code mods ;;
  try_finally (try_block code)
    (invoke CallTearDown (tearDown code) ;; cleanup_loop code fuel).

End Instances.

Arguments TestCaseObj : clear implicits.
Arguments UserCode : clear implicits.
Arguments Call : clear implicits.
Arguments Run : clear implicits.

End testcase.

(** ** Vocabulary for the statements *)

(** The processes spawned and the exit hooks registered, as a trace records
    them. *)
Definition spawned (tr : list Event) : list (nat * list string * Env) :=
  omap (fun e => match e with
                 | EvPopen pid args env => Some (pid, args, env)
                 | _ => None
                 end) tr.

Definition atexit_kills (tr : list Event) : list nat :=
  omap (fun e => match e with EvAtexitKill pid => Some pid | _ => None end) tr.

(** The value [start_server_process] computes for PYTHONPATH from the
    entries [env] of its copy. *)
Definition pythonpath_entry (host : Host) (env : Env) : string :=
  default "" (env !! PyStr "PYTHONPATH") +:+ pathsep host
  +:+ bootstrap._one_up_dir host (bootstrap_file host) +:+ pathsep host
  +:+ bootstrap._one_up_dir host (zmq_file host).

(** The code fragment the claim describes, line by line: import the test
    module under an alias, import [reload], reload the module when asked,
    instantiate the test case class with the method name, run it remotely. *)
Definition remote_fragment (module_ class_name : string) (reload_test : bool)
    (method_name : string) : string :=
  let alias := replace "." "_" module_ in
  let run :=
    "tc = " +:+ alias +:+ "." +:+ class_name +:+ "(" +:+ DQUOTE
    +:+ method_name +:+ DQUOTE +:+ ")" +:+ LF
    +:+ "tc._wrapped_test_remote()" in
  "import " +:+ module_ +:+ " as " +:+ alias +:+ LF
  +:+ "from dccautomation.compat import reload" +:+ LF
  +:+ (if reload_test then "reload(" +:+ alias +:+ ")" +:+ LF +:+ run
       else run).

(** [common] as it would be if it bound the name bootstrap.py asks for. *)
Definition common_with_endpoint_key : gmap string pyval :=
  <["ENV_HANDSHAKE_ENDPOINT":=PyStr common.ENV_HANDSHAKE]> common.namespace.

(** *** Sample inputs *)

(** [posixpath.dirname] *)
Fixpoint skip_while (p : ascii -> bool) (l : list ascii) : list ascii :=
  match l with
  | [] => []
  | c :: l' => if p c then skip_while p l' else l
  end.

Definition is_slash (c : ascii) : bool := Ascii.eqb c "/".

Definition posixpath_dirname (p : string) : string :=
  let head_rev := skip_while (fun c => negb (is_slash c))
                    (rev (list_ascii_of_string p)) in
  if forallb is_slash head_rev then string_of_list_ascii (rev head_rev)
  else string_of_list_ascii (rev (skip_while is_slash head_rev)).

Definition sample_host : Host :=
  mkHost posixpath_dirname ":"
    "/opt/tools/dccautomation/bootstrap.py"
    "/usr/lib/python2.7/site-packages/zmq/__init__.py"
    (fun s => "tcp://127.0.0.1:5000")
    (fun _ _ => None)
    (fun _ _ => Some "tcp://127.0.0.1:6000")
    (fun _ _ => Return tt).

Definition sample_world : World :=
  mkWorld {[ PyStr "PYTHONPATH" := "/lib"; PyStr "HOME" := "/root" ]}
    [] [] 0 0 [].

Definition sample_config : Config := mkConfig "maya" ["mayapy"; "-m"; "boot"].

(** *** Statements about the remote run *)

(** A cleanup that returns and leaves the list of cleanups alone. *)
Definition well_behaved {U Cleanup Module_ : Type}
    (code : testcase.UserCode U Cleanup Module_) (c : Cleanup) : Prop :=
  forall s, exists s',
    testcase.call code c s = (Return tt, s')
    /\ testcase._cleanups s' = testcase._cleanups s.

(** The claim about cleanups, as the spec words it: however the body and
    tearDown end (by returning or by raising), the run then calls every
    cleanup registered at that point, last registered first. *)
Definition runs_all_cleanups_lifo {U Cleanup Module_ : Type}
    (code : testcase.UserCode U Cleanup Module_) (fuel : nat)
    (r : testcase.Run U Cleanup Module_) : Prop :=
  forall r1 o r2 o' r3,
    testcase.reload_loop code (testcase.reload_modules (testcase.self r)) r
      = (Return tt, r1) ->
    testcase.try_block code r1 = (o, r2) -> finished o = true ->
    testcase.invoke testcase.CallTearDown (testcase.tearDown code) r2
      = (o', r3) ->
    finished o' = true ->
    testcase.calls (testcase._wrapped_test_remote code fuel r).2
    = testcase.calls r3
      ++ map testcase.CallCleanup (rev (testcase._cleanups (testcase.self r3))).

(** A test case whose setUp registers the cleanups A, B and C, whose test
    method and tearDown end as given, and whose cleanups just return. *)
Definition sample_code (body teardown : outcome unit)
  : testcase.UserCode unit string unit :=
  testcase.mkUserCode
    (modify (fun s => testcase.set_cleanups
                        (testcase._cleanups s ++ ["A"; "B"; "C"]) s))
    (fun s => (teardown, s))
    (fun name => if String.eqb name "test_it"
                 then Some (fun s => (body, s)) else None)
    (fun _ s => (Return tt, s))
    (fun _ s => (Return tt, s)).

Definition sample_test : testcase.TestCaseObj unit string unit :=
  testcase.mkTestCase "pkg.tests.test_scene" "SceneTest" true []
    (Some "test_it") None [] tt.

Definition sample_run : testcase.Run unit string unit :=
  testcase.mkRun sample_test [].

Definition sample_client : testcase.Client :=
  testcase.mkClient
    (bootstrap.mkServerProc 0 (Some "tcp://127.0.0.1:6000") sample_config).

(** ** testcase.py: obtaining the client and [run] *)

Module RemoteTestCase.

(** The class attributes [_get_client] reads and writes. *)
Record ClassAttrs := mkClassAttrs {
  cache_client : bool;
  _cached_client : option testcase.Client
}.

(** What [run] writes to [sys.stderr]: text, or the traceback of an
    exception. *)
Inductive StderrItem :=
| Text (s : string)
| Traceback (e : exn).

Section Driver.

Context {U Cleanup Module_ : Type}.

(** The driver while it runs a test: the test case object, its class, what
    was written to [sys.stderr] (oldest first) and the world. *)
Record Driver := mkDriver {
  this : testcase.TestCaseObj U Cleanup Module_;
  cls : ClassAttrs;
  stderr : list StderrItem;
  world : World
}.

Definition in_world {A} (c : M World A) : M Driver A :=
  fun d =>
    let (o, w') := c (world d) in
    (o, mkDriver (this d) (cls d) (stderr d) w').

Definition in_test {A}
    (c : M (testcase.TestCaseObj U Cleanup Module_ * World) A) : M Driver A :=
  fun d =>
    let (o, s') := c (this d, world d) in
    (o, mkDriver s'.1 (cls d) (stderr d) s'.2).

Definition stderr_write (item : StderrItem) : M Driver unit :=
  modify (fun d => mkDriver (this d) (cls d) (stderr d ++ [item]) (world d)).

(** [create_client] is the class's method of that name: the one of
    [RemoteTestCase] or an override.  [return cls._cached_client] gives the
    client just stored or the one found. *)
Definition _get_client (create_client : M World testcase.Client)
  : M Driver testcase.Client :=
  cache <- gets (fun d => cache_client (cls d)) ;;
  if negb cache then in_world create_client
  else
    cached <- gets (fun d => _cached_client (cls d)) ;;
    match cached with
    | None =>
        client <- in_world create_client ;;
        modify (fun d =>
          mkDriver (this d) (mkClassAttrs (cache_client (cls d)) (Some client))
            (stderr d) (world d)) ;;
        ret client
    | Some client => ret client
    end.

(** [TestCase_run set_up test tear_down] stands for
    [unittest.TestCase.run(self, result)] on an object whose [setUp], test
    method and [tearDown] attributes are the three given functions.  The
    handler around [_get_client] is [except Exception:], so an exception that
    is not an [Exception] passes it untouched. *)
Definition run (host : Host) (create_client : M World testcase.Client)
    (TestCase_run :
       M (testcase.TestCaseObj U Cleanup Module_ * World) unit ->
       M (testcase.TestCaseObj U Cleanup Module_ * World) unit ->
       M (testcase.TestCaseObj U Cleanup Module_ * World) unit ->
       M (testcase.TestCaseObj U Cleanup Module_ * World) unit)
  : M Driver unit :=
  client <-
    (fun d =>
       match _get_client create_client d with
       | (Raise e, d') =>
           if is_Exception e then
             (stderr_write
                (Text ("Critical failure creating client for test:" +:+ LF)) ;;
              self <- gets this ;;
              stderr_write
                (Text (testcase.__name__ self +:+ "."
                       +:+ testcase.str (testcase._testMethodName self))) ;;
              stderr_write (Traceback e) ;;
              raise e) d'
           else (Raise e, d')
       | other => other
       end) ;;
  in_test (TestCase_run (ret tt) (testcase.wrapped_test host client) (ret tt)).

End Driver.

Arguments Driver : clear implicits.

End RemoteTestCase.

(** *** More sample inputs *)

(** A test case whose cleanup B raises, and whose module "broken" fails to
    reload. *)
Definition sample_code_failing : testcase.UserCode unit string string :=
  testcase.mkUserCode
    (modify (fun s => testcase.set_cleanups
                        (testcase._cleanups s ++ ["A"; "B"; "C"]) s))
    (fun s => (Return tt, s))
    (fun name => if String.eqb name "test_it"
                 then Some (fun s => (Return tt, s)) else None)
    (fun c s => (if String.eqb c "B" then Raise (OtherError "B failed")
                 else Return tt, s))
    (fun m s => (if String.eqb m "broken" then Raise (OtherError "no reload")
                 else Return tt, s)).

Definition sample_test_with_modules (mods : list string)
  : testcase.TestCaseObj unit string string :=
  testcase.mkTestCase "pkg.tests.test_scene" "SceneTest" true mods
    (Some "test_it") None [] tt.

Definition sample_driver (cache : bool) (cached : option testcase.Client)
  : RemoteTestCase.Driver unit string unit :=
  RemoteTestCase.mkDriver sample_test
    (RemoteTestCase.mkClassAttrs cache cached) [] sample_world.

(** The clients connected, as a trace records them. *)
Definition connects (tr : list Event) : list (option string) :=
  omap (fun e => match e with EvConnect a => Some a | _ => None end) tr.

(** A world in which a handshaker has bound its socket and waits. *)
Definition sample_world_waiting : World :=
  mkWorld ∅ [∅]
    [mkHandshaker sample_config (DictAt 0)
       (Some (utils.mkSocketInfo 0 "tcp://127.0.0.1:5000")) None]
    1 0 [EvBind 0 "tcp://127.0.0.1:5000"].

(** ** Theorems *)


(** *** Strings *)

Lemma append_empty_r (s : string) : s +:+ "" = s.
Proof.
  induction s as [|c s IH]; [reflexivity|].
  change (String c (s +:+ "") = String c s). by rewrite IH.
Qed.

Lemma format_pythonpath (pythonpath here there sep : string) :
  format "{}{sep}{}{sep}{}" [pythonpath; here; there] [("sep", sep)]
  = Some (pythonpath +:+ sep +:+ here +:+ sep +:+ there).
Proof.
  transitivity (Some (pythonpath +:+ sep +:+ here +:+ sep +:+ there +:+ ""));
    [reflexivity | by rewrite append_empty_r].
Qed.

Example one_up_dir_of_package :
  bootstrap._one_up_dir sample_host "/opt/tools/dccautomation/bootstrap.py"
  = "/opt/tools".
Proof. reflexivity. Qed.

(** *** The object store *)

Lemma lookup_fresh {A} (l : list A) (x : A) : (l ++ [x]) !! length l = Some x.
Proof. by apply list_lookup_middle. Qed.

Lemma insert_fresh {A} (l : list A) (x y : A) :
  <[length l:=y]> (l ++ [x]) = l ++ [y].
Proof.
  replace (length l) with (length l + 0) by lia.
  by rewrite insert_app_r.
Qed.

Ltac heap :=
  repeat progress (cbn -[format]; rewrite ?lookup_fresh, ?insert_fresh).

Ltac unfold_world_ops :=
  unfold Popen, socket_recv, socket_send, socket_close, atexit_register_kill,
    create_rep_socket_bound_to_random, dict_get, dict_setitem, dict_items,
    dict_new, getattr, log, bind, ret, raise, modify, gets.

(** *** bootstrap.py: what a launch does, path by path *)

Lemma start_server_process_eval common host config env ds hs s pid tr :
  bootstrap.start_server_process common host config
    (mkWorld env ds hs s pid tr) =
  let addr := ephemeral_address host s in
  let obj endpoint :=
    hs ++ [mkHandshaker config (DictAt (length ds))
             (Some (utils.mkSocketInfo s addr)) endpoint] in
  match common !! "ENV_HANDSHAKE_ENDPOINT" with
  | None =>
      (Raise (AttributeError "ENV_HANDSHAKE_ENDPOINT"),
       mkWorld env (ds ++ [env]) (obj None) (S s) pid (tr ++ [EvBind s addr]))
  | Some k1 =>
      let env1 := <[k1:=addr]> env in
      match common !! "ENV_CONFIGNAME" with
      | None =>
          (Raise (AttributeError "ENV_CONFIGNAME"),
           mkWorld env (ds ++ [env1]) (obj None) (S s) pid
             (tr ++ [EvBind s addr]))
      | Some k2 =>
          let env2 := <[k2:=cfgname config]> env1 in
          let env3 :=
            <[PyStr "PYTHONPATH":=pythonpath_entry host env2]> env2 in
          match popen_error host (popen_args config) env3 with
          | Some e =>
              (Raise e,
               mkWorld env (ds ++ [env3]) (obj None) (S s) pid
                 (tr ++ [EvBind s addr]))
          | None =>
              let tr' :=
                tr ++ [EvBind s addr; EvPopen pid (popen_args config) env3;
                       EvAtexitKill pid] in
              match arrives host tr' s with
              | None =>
                  (Hang, mkWorld env (ds ++ [env3]) (obj None) (S s) (S pid) tr')
              | Some msg =>
                  (Return (bootstrap.mkServerProc pid (Some msg) config),
                   mkWorld env (ds ++ [env3]) (obj (Some msg)) (S s) (S pid)
                     (tr' ++ [EvRecv s msg; EvSend s ""; EvClose s]))
              end
          end
      end
  end.
Proof.
  unfold bootstrap.start_server_process, with_stmt,
    bootstrap.Handshaker.__enter__, bootstrap.Handshaker.__exit__,
    bootstrap.Handshaker.__init__, bootstrap.Handshaker.load,
    bootstrap.Handshaker.store.
  unfold_world_ops. heap.
  destruct (common !! "ENV_HANDSHAKE_ENDPOINT") as [k1|]; heap; [|reflexivity].
  destruct (common !! "ENV_CONFIGNAME") as [k2|]; heap; [|reflexivity].
  rewrite format_pythonpath. heap.
  fold (pythonpath_entry host
          (<[k2:=cfgname config]> (<[k1:=ephemeral_address host s]> env))).
  destruct (popen_error _ _ _) as [e|]; heap; [reflexivity|].
  rewrite <- !app_assoc. cbn.
  destruct (arrives _ _ _) as [msg|]; heap; [|reflexivity].
  rewrite <- !app_assoc. reflexivity.
Qed.

(** X9: [Handshaker.__exit__] on its own does what the handshake asks: without
    an exception it takes one message, answers with the empty message,
    closes the socket and keeps the message as [app_endpoint]; with an
    exception it does nothing and lets the exception pass. *)
Lemma exit_awaits_endpoint host self w h hi msg :
  handshakers w !! self = Some h ->
  _handshake_info h = Some hi ->
  arrives host (trace w) (utils.socket hi) = Some msg ->
  let r := bootstrap.Handshaker.__exit__ host self None w in
  r.1 = Return false
  /\ trace r.2
     = trace w ++ [EvRecv (utils.socket hi) msg; EvSend (utils.socket hi) "";
                   EvClose (utils.socket hi)]
  /\ app_endpoint <$> handshakers r.2 !! self = Some (Some msg).
Proof.
  intros Hself Hinfo Hmsg. cbv zeta.
  assert (self < length (handshakers w)) as Hlt
    by (eapply lookup_lt_Some; eassumption).
  unfold bootstrap.Handshaker.__exit__, bootstrap.Handshaker.load,
    bootstrap.Handshaker.store.
  unfold_world_ops. destruct h as [cfg env info ep]. cbn in Hinfo. subst info.
  cbn. rewrite Hself. cbn. rewrite Hmsg. cbn. rewrite Hself. cbn.
  rewrite !list_lookup_insert_eq by exact Hlt. cbn.
  rewrite !list_lookup_insert_eq by exact Hlt. cbn.
  rewrite <- !app_assoc. split; [reflexivity|]. split; [reflexivity|].
  by rewrite list_lookup_insert_eq.
Qed.

Lemma exit_lets_exception_pass host self e w :
  bootstrap.Handshaker.__exit__ host self (Some e) w = (Return false, w).
Proof. reflexivity. Qed.

Lemma common_lacks_handshake_endpoint :
  common.namespace !! "ENV_HANDSHAKE_ENDPOINT" = None.
Proof. reflexivity. Qed.

(** With the module as common.py defines it, every launch stops in
    [Handshaker.__enter__]: the socket is bound, then the lookup of
    [common.ENV_HANDSHAKE_ENDPOINT] raises. *)
Lemma start_server_process_raises host config env ds hs s pid tr :
  bootstrap.start_server_process common.namespace host config
    (mkWorld env ds hs s pid tr) =
  (Raise (AttributeError "ENV_HANDSHAKE_ENDPOINT"),
   mkWorld env (ds ++ [env])
     (hs ++ [mkHandshaker config (DictAt (length ds))
               (Some (utils.mkSocketInfo s (ephemeral_address host s))) None])
     (S s) pid (tr ++ [EvBind s (ephemeral_address host s)])).
Proof.
  rewrite start_server_process_eval, common_lacks_handshake_endpoint.
  reflexivity.
Qed.

(** Had [common] bound the name, a launch whose spawn succeeds and whose
    child reports [msg] would return the handle the spec describes. *)
Lemma start_server_process_returns common host config env ds hs s pid tr
    k1 k2 msg :
  common !! "ENV_HANDSHAKE_ENDPOINT" = Some k1 ->
  common !! "ENV_CONFIGNAME" = Some k2 ->
  let addr := ephemeral_address host s in
  let env2 := <[k2:=cfgname config]> (<[k1:=addr]> env) in
  let env3 := <[PyStr "PYTHONPATH":=pythonpath_entry host env2]> env2 in
  let tr' := tr ++ [EvBind s addr; EvPopen pid (popen_args config) env3;
                    EvAtexitKill pid] in
  popen_error host (popen_args config) env3 = None ->
  arrives host tr' s = Some msg ->
  exists w',
    bootstrap.start_server_process common host config
      (mkWorld env ds hs s pid tr)
    = (Return (bootstrap.mkServerProc pid (Some msg) config), w')
    /\ trace w' = tr' ++ [EvRecv s msg; EvSend s ""; EvClose s]
    /\ os_environ w' = env.
Proof.
  intros Hk1 Hk2 addr env2 env3 tr' Hspawn Hmsg.
  rewrite start_server_process_eval, Hk1, Hk2. cbv zeta.
  fold addr. fold env2. fold env3. rewrite Hspawn. fold tr'. rewrite Hmsg.
  eexists. split; [reflexivity|]. split; reflexivity.
Qed.

(** C8: common.py defines exactly three status codes, SUCCESS,
    INVALID_METHOD and UNHANDLED_ERROR, with pairwise distinct values
    (200, 400, 503), so that a status value names exactly one of them. *)
Theorem status_codes_three_distinct :
  common.status_codes =
    [ ("SUCCESS", common.SUCCESS);
      ("INVALID_METHOD", common.INVALID_METHOD);
      ("UNHANDLED_ERROR", common.UNHANDLED_ERROR) ]
  /\ length common.status_codes = 3
  /\ NoDup (common.status_codes.*2)
  /\ (forall n1 n2 z,
        (n1, z) ∈ common.status_codes -> (n2, z) ∈ common.status_codes ->
        n1 = n2).
Proof.
  split; [reflexivity|]. split; [reflexivity|]. split.
  - apply (bool_decide_unpack _). reflexivity.
  - intros n1 n2 z H1 H2. unfold common.status_codes in H1, H2.
    cbn in H1, H2. rewrite !elem_of_cons, elem_of_nil in H1, H2.
    unfold common.SUCCESS, common.INVALID_METHOD, common.UNHANDLED_ERROR
      in H1, H2.
    destruct H1 as [H1|[H1|[H1|[]]]]; destruct H2 as [H2|[H2|[H2|[]]]];
      congruence.
Qed.

(** C2 (the code departs from the claim): with common.py as it is, no launch
    adds the two entries.  The call raises AttributeError from
    [Handshaker.__enter__]; at that point the copy of the environment holds
    the driver's entries and nothing else, and nothing was spawned. *)
Theorem start_server_process_adds_no_entry host config w :
  let r := bootstrap.start_server_process common.namespace host config w in
  r.1 = Raise (AttributeError "ENV_HANDSHAKE_ENDPOINT")
  /\ dicts r.2 = dicts w ++ [os_environ w]
  /\ spawned (trace r.2) = spawned (trace w).
Proof.
  destruct w as [env ds hs s pid tr]. cbv zeta.
  rewrite start_server_process_raises. cbn [fst snd dicts os_environ trace].
  split; [reflexivity|]. split; [reflexivity|].
  unfold spawned. rewrite omap_app. cbn. by rewrite app_nil_r.
Qed.

(** With common.py as it is, the rendezvous socket is bound and then
    abandoned: the only event of a launch is the bind, and the handshaker
    object never learns an endpoint. *)
Lemma start_server_process_abandons_socket host config w :
  let r := bootstrap.start_server_process common.namespace host config w in
  let s := next_socket w in
  trace r.2 = trace w ++ [EvBind s (ephemeral_address host s)]
  /\ app_endpoint <$> handshakers r.2 !! length (handshakers w) = Some None
  /\ r.1 = Raise (AttributeError "ENV_HANDSHAKE_ENDPOINT").
Proof.
  destruct w as [env ds hs s pid tr]. cbv zeta.
  rewrite start_server_process_raises.
  cbn [fst snd handshakers next_socket trace].
  by rewrite lookup_fresh.
Qed.

(** C3: a launch that succeeds, that is, returns a handle, has received
    exactly one message on the rendezvous socket it bound, then sent the
    empty reply on it, then closed it, and the endpoint in the handle is
    that message; this for whatever [common] binds.  (With common.py as it
    is no launch returns; see C2.) *)
Theorem successful_launch_completes_handshake
    (common : gmap string pyval) host config w handle :
  (bootstrap.start_server_process common host config w).1 = Return handle ->
  let r := bootstrap.start_server_process common host config w in
  let s := next_socket w in
  let pid := next_pid w in
  exists env msg,
    trace r.2
    = trace w
      ++ [EvBind s (ephemeral_address host s);
          EvPopen pid (popen_args config) env; EvAtexitKill pid;
          EvRecv s msg; EvSend s ""; EvClose s]
    /\ bootstrap.endpoint handle = Some msg
    /\ handle = bootstrap.mkServerProc pid (Some msg) config.
Proof.
  destruct w as [env ds hs s pid tr]. cbv zeta.
  rewrite start_server_process_eval. cbv zeta.
  cbn [next_socket next_pid trace].
  destruct (common !! "ENV_HANDSHAKE_ENDPOINT") as [k1|]; [|discriminate].
  destruct (common !! "ENV_CONFIGNAME") as [k2|]; [|discriminate].
  destruct (popen_error _ _ _) as [e|]; [discriminate|].
  destruct (arrives _ _ _) as [msg|]; [|discriminate].
  cbn [fst snd trace]. intros [= <-].
  eexists _, msg. rewrite <- app_assoc. repeat split.
Qed.

Lemma successful_launch_completes_handshake_witness :
  let r := bootstrap.start_server_process common_with_endpoint_key
             sample_host sample_config sample_world in
  exists env msg,
    trace r.2
    = trace sample_world
      ++ [EvBind 0 "tcp://127.0.0.1:5000";
          EvPopen 0 (popen_args sample_config) env; EvAtexitKill 0;
          EvRecv 0 msg; EvSend 0 ""; EvClose 0]
    /\ bootstrap.endpoint
         (bootstrap.mkServerProc 0 (Some "tcp://127.0.0.1:6000")
            sample_config) = Some msg
    /\ bootstrap.mkServerProc 0 (Some "tcp://127.0.0.1:6000") sample_config
       = bootstrap.mkServerProc 0 (Some msg) sample_config.
Proof.
  apply (successful_launch_completes_handshake common_with_endpoint_key
           sample_host sample_config sample_world
           (bootstrap.mkServerProc 0 (Some "tcp://127.0.0.1:6000")
              sample_config)).
  vm_compute. reflexivity.
Defined.

(** C6 (the code departs from the claim): with common.py as it is, no child
    process exists whose PYTHONPATH could be extended: the launch spawns
    nothing, and the PYTHONPATH entry of the copy is still the driver's. *)
Theorem start_server_process_extends_no_pythonpath host config w :
  let r := bootstrap.start_server_process common.namespace host config w in
  next_pid r.2 = next_pid w
  /\ spawned (trace r.2) = spawned (trace w)
  /\ (dicts r.2 !! length (dicts w)) ≫= (.!! PyStr "PYTHONPATH")
     = os_environ w !! PyStr "PYTHONPATH".
Proof.
  destruct w as [env ds hs s pid tr]. cbv zeta.
  rewrite start_server_process_raises.
  cbn [fst snd dicts os_environ next_pid trace].
  split; [reflexivity|]. split.
  - unfold spawned. rewrite omap_app. cbn. by rewrite app_nil_r.
  - by rewrite lookup_fresh.
Qed.

(** C7 (the code departs from the claim): with common.py as it is, a launch
    returns no handle and registers no exit hook. *)
Theorem start_server_process_returns_no_handle host config w :
  let r := bootstrap.start_server_process common.namespace host config w in
  r.1 = Raise (AttributeError "ENV_HANDSHAKE_ENDPOINT")
  /\ atexit_kills (trace r.2) = atexit_kills (trace w)
  /\ next_pid r.2 = next_pid w.
Proof.
  destruct w as [env ds hs s pid tr]. cbv zeta.
  rewrite start_server_process_raises. cbn [fst snd trace next_pid].
  split; [reflexivity|]. split; [|reflexivity].
  unfold atexit_kills. rewrite omap_app. cbn. by rewrite app_nil_r.
Qed.

(** C9: whatever [common] binds and however the launch ends (a handle, an
    exception, a wait that never ends), [os.environ] afterwards is what it
    was before: the handshake address, the configuration name and
    PYTHONPATH are written to the copy only. *)
Theorem start_server_process_preserves_os_environ
    (common : gmap string pyval) host config w :
  os_environ (bootstrap.start_server_process common host config w).2
  = os_environ w.
Proof.
  destruct w as [env ds hs s pid tr].
  rewrite start_server_process_eval. cbv zeta.
  repeat case_match; reflexivity.
Qed.

(** The copy, by contrast, does receive the three entries when [common]
    binds both names. *)
Lemma start_server_process_writes_copy common host config w k1 k2 :
  common !! "ENV_HANDSHAKE_ENDPOINT" = Some k1 ->
  common !! "ENV_CONFIGNAME" = Some k2 ->
  let r := bootstrap.start_server_process common host config w in
  let addr := ephemeral_address host (next_socket w) in
  let env2 := <[k2:=cfgname config]> (<[k1:=addr]> (os_environ w)) in
  dicts r.2 !! length (dicts w)
  = Some (<[PyStr "PYTHONPATH":=pythonpath_entry host env2]> env2).
Proof.
  intros Hk1 Hk2. destruct w as [env ds hs s pid tr]. cbv zeta.
  rewrite start_server_process_eval, Hk1, Hk2. cbv zeta.
  repeat case_match; cbn [snd dicts]; by rewrite lookup_fresh.
Qed.

(** The copy is what keeps [os.environ] clean: a handshaker handed
    [os.environ] itself writes to it. *)
Example enter_on_os_environ_writes_it :
  let r := (mgr <- bootstrap.Handshaker.__init__ sample_config OsEnviron ;;
            bootstrap.Handshaker.__enter__ common_with_endpoint_key
              sample_host mgr) sample_world in
  os_environ r.2 !! PyStr "DCCAUTO_HANDSHAKE" = Some "tcp://127.0.0.1:5000"
  /\ os_environ sample_world !! PyStr "DCCAUTO_HANDSHAKE" = None.
Proof. vm_compute. split; reflexivity. Qed.

Example sample_launch_with_endpoint_key :
  let r := bootstrap.start_server_process common_with_endpoint_key
             sample_host sample_config sample_world in
  r.1 = Return (bootstrap.mkServerProc 0 (Some "tcp://127.0.0.1:6000")
                  sample_config)
  /\ (dicts r.2 !! 0) ≫= (.!! PyStr "PYTHONPATH")
     = Some "/lib:/opt/tools:/usr/lib/python2.7/site-packages"
  /\ (dicts r.2 !! 0) ≫= (.!! PyStr "DCCAUTO_HANDSHAKE")
     = Some "tcp://127.0.0.1:5000"
  /\ (dicts r.2 !! 0) ≫= (.!! PyStr "DCCAUTO_CONFIGNAME") = Some "maya"
  /\ (dicts r.2 !! 0) ≫= (.!! PyStr "HOME") = Some "/root"
  /\ os_environ r.2 !! PyStr "DCCAUTO_HANDSHAKE" = None.
Proof. vm_compute. repeat split. Qed.

(** *** testcase.py: [create_client] *)

(** C10: when [config] is None, [create_client] raises RuntimeError; when
    [config] is set and [start_proc] is false, the assertion fails; in both
    cases the world is untouched (no socket, no process). *)
Theorem create_client_guards (common : gmap string pyval) host cls w :
  testcase.config cls = None \/ testcase.start_proc cls = false ->
  let r := testcase.create_client common host cls w in
  r.2 = w
  /\ r.1 = match testcase.config cls with
           | None =>
               Raise (RuntimeError
                 "config must be set or this method must be overridden.")
           | Some (Return _) =>
               Raise (AssertionError "Not starting proc is not yet supported.")
           | Some (Raise e) => Raise e
           | Some Hang => Hang
           | Some OutOfFuel => OutOfFuel
           end.
Proof.
  intros Hguard. cbv zeta. unfold testcase.create_client.
  destruct (testcase.config cls) as [[cfg|e| |]|] eqn:Hconfig;
    try (split; reflexivity).
  destruct Hguard as [Hnone|Hproc]; [discriminate|].
  rewrite Hproc. split; reflexivity.
Qed.

Lemma create_client_guards_witness :
  (testcase.create_client common_with_endpoint_key sample_host
     (testcase.mkClass None true) sample_world).2 = sample_world
  /\ (testcase.create_client common_with_endpoint_key sample_host
        (testcase.mkClass (Some (Return sample_config)) false)
        sample_world).1
     = Raise (AssertionError "Not starting proc is not yet supported.").
Proof.
  split.
  - apply (create_client_guards common_with_endpoint_key sample_host
             (testcase.mkClass None true) sample_world).
    left. reflexivity.
  - apply (create_client_guards common_with_endpoint_key sample_host
             (testcase.mkClass (Some (Return sample_config)) false)
             sample_world).
    right. reflexivity.
Defined.

(** A process is spawned only when [config] is set and [start_proc] is
    true. *)
Lemma create_client_spawns_only_when_enabled
    (common : gmap string pyval) host cls w :
  spawned (trace (testcase.create_client common host cls w).2)
    <> spawned (trace w) ->
  (exists cfg, testcase.config cls = Some (Return cfg))
  /\ testcase.start_proc cls = true.
Proof.
  unfold testcase.create_client. intros Hspawn.
  destruct (testcase.config cls) as [[cfg|e| |]|] eqn:Hconfig;
    destruct (testcase.start_proc cls) eqn:Hproc;
    try (exfalso; apply Hspawn; reflexivity).
  split; [by eexists | reflexivity].
Qed.

(** With both set, and [common] binding the name bootstrap.py asks for, the
    process is spawned and the client connects to the reported endpoint. *)
Example sample_create_client :
  let r := testcase.create_client common_with_endpoint_key sample_host
             (testcase.mkClass (Some (Return sample_config)) true)
             sample_world in
  (spawned (trace r.2)).*1.*2 = [popen_args sample_config]
  /\ last (trace r.2) = Some (EvConnect (Some "tcp://127.0.0.1:6000")).
Proof. vm_compute. split; reflexivity. Qed.

(** *** testcase.py: the request sent for a test *)

Lemma format_fragment (module_ class_name method_name : string) (b : bool) :
  format
    (join LF
       ((if b
         then ["import {testmodule} as {testalias}";
               "from dccautomation.compat import reload"]
              ++ ["reload({testalias})"]
         else ["import {testmodule} as {testalias}";
               "from dccautomation.compat import reload"])
        ++ ["tc = {testalias}.{testcase}(" +:+ DQUOTE +:+ "{testfunc}"
            +:+ DQUOTE +:+ ")"]
        ++ ["tc._wrapped_test_remote()"]))
    []
    [("testmodule", module_); ("testalias", replace "." "_" module_);
     ("testcase", class_name); ("testfunc", method_name)]
  = Some (remote_fragment module_ class_name b method_name).
Proof. destruct b; reflexivity. Qed.

(** C5: a test invocation (the function [run] installs in place of the test
    method) sends exactly one request.  Its code imports the test module
    under an alias, imports [reload], reloads the module exactly when
    [reload_test] is true, instantiates the class by name with the current
    test method name, and calls [_wrapped_test_remote], in this order.  The
    call ends as the server's reply says and leaves the method name as it
    was. *)
Theorem wrapped_test_sends_one_request {U Cleanup Module_ : Type}
    host client (self : testcase.TestCaseObj U Cleanup Module_) w :
  let r := testcase.wrapped_test host client (self, w) in
  let code :=
    remote_fragment (testcase.__module__ self) (testcase.__name__ self)
      (testcase.reload_test self)
      (testcase.str (testcase._testMethodName self)) in
  trace r.2.2 = trace w ++ [EvExec code]
  /\ r.1 = exec_reply host (trace w) code
  /\ testcase._testMethodName r.2.1 = testcase._testMethodName self.
Proof.
  cbv zeta.
  unfold testcase.wrapped_test, testcase._wrapped_test, testcase.on_self,
    testcase.on_world, testcase.exec_, try_finally, log, bind, ret, raise,
    modify, gets.
  destruct self as [m n b mods name name' cs u].
  cbn -[format join].
  match goal with
  | |- context [format ?t ?a ?k] =>
      replace (format t a k)
        with (Some (remote_fragment m n b (testcase.str name)))
        by (symmetry; destruct b;
            [exact (format_fragment m n (testcase.str name) true)
            |exact (format_fragment m n (testcase.str name) false)])
  end.
  cbn. destruct (exec_reply host (trace w) _); cbn; auto.
Qed.

(** *** testcase.py: the remote run *)

Section RemoteRun.

Context {U Cleanup Module_ : Type}.
Implicit Types (code : testcase.UserCode U Cleanup Module_).
Implicit Types (r : testcase.Run U Cleanup Module_).

Lemma cleanup_loop_calls code fuel r :
  exists rest,
    testcase.calls (testcase.cleanup_loop code fuel r).2
    = testcase.calls r ++ map testcase.CallCleanup rest.
Proof.
  revert r. induction fuel as [|fuel IH]; intros r; cbn.
  - exists []. destruct (last _); cbn; by rewrite app_nil_r.
  - destruct (last _) as [c|]; [|exists []; cbn; by rewrite app_nil_r].
    unfold bind, modify, testcase.invoke. cbn.
    destruct (testcase.call code c _) as [[[]|e| |] s'];
      try (exists [c]; reflexivity).
    destruct (IH (testcase.mkRun s' (testcase.calls r ++ [testcase.CallCleanup c])))
      as [rest ->].
    exists (c :: rest). cbn. by rewrite <- app_assoc.
Qed.


Lemma try_block_calls code r1 :
  exists body,
    testcase.calls (testcase.try_block code r1).2
    = testcase.calls r1 ++ testcase.CallSetUp :: body
    /\ ((body = [] /\ (testcase.try_block code r1).1 <> Return tt)
        \/ exists name, body = [testcase.CallTest name]).
Proof.
  unfold testcase.try_block, testcase.invoke, bind, gets, raise.
  destruct (testcase.setUp code _) as [[[]|e| |] s1]; cbn;
    try (exists []; split; [reflexivity | left; split; [reflexivity | discriminate]]).
  destruct (testcase._testMethodName s1) as [name|]; cbn;
    [|exists []; split; [reflexivity | left; split; [reflexivity | discriminate]]].
  destruct (testcase.test_method code name) as [m|]; cbn;
    [|exists []; split; [reflexivity | left; split; [reflexivity | discriminate]]].
  exists [testcase.CallTest name].
  destruct (m s1) as [o s2]. cbn. rewrite <- app_assoc.
  split; [reflexivity | right; by eexists].
Qed.

End RemoteRun.

(** C4, as the code has it: once the modules are reloaded, tearDown is
    called exactly once in
    every run whose setUp and test method return or raise: after setUp,
    after the test method when that was reached, and before any cleanup. *)
Theorem tearDown_called_after_body {U Cleanup Module_ : Type}
    (code : testcase.UserCode U Cleanup Module_) fuel
    (r r1 r2 : testcase.Run U Cleanup Module_) o :
  testcase.reload_loop code (testcase.reload_modules (testcase.self r)) r
    = (Return tt, r1) ->
  testcase.try_block code r1 = (o, r2) ->
  finished o = true ->
  exists body rest,
    testcase.calls (testcase._wrapped_test_remote code fuel r).2
    = testcase.calls r1
      ++ testcase.CallSetUp :: body
      ++ testcase.CallTearDown :: map testcase.CallCleanup rest
    /\ ((body = [] /\ o <> Return tt)
        \/ exists name, body = [testcase.CallTest name]).
Proof.
  intros Hreload Htry Hfin.
  destruct (try_block_calls code r1) as (body & Hcalls & Hbody).
  rewrite Htry in Hcalls, Hbody. cbn [fst snd] in Hcalls, Hbody.
  exists body.
  unfold testcase._wrapped_test_remote, bind at 1, gets.
  unfold bind at 1. rewrite Hreload.
  unfold try_finally. rewrite Htry.
  assert (exists rest,
    testcase.calls
      ((testcase.invoke testcase.CallTearDown (testcase.tearDown code);;
        testcase.cleanup_loop code fuel) r2).2
    = testcase.calls r2
      ++ testcase.CallTearDown :: map testcase.CallCleanup rest)
    as (rest & Hrest).
  { unfold bind, testcase.invoke.
    destruct (testcase.tearDown code _) as [[[]|e| |] s3];
      try (exists []; reflexivity).
    destruct (cleanup_loop_calls code fuel
                (testcase.mkRun s3 (testcase.calls r2 ++ [testcase.CallTearDown])))
      as (rest & ->).
    exists rest. cbn. by rewrite <- app_assoc. }
  exists rest. split; [|exact Hbody].
  destruct ((_ ;; _) r2) as [o' r4]. cbn [snd] in Hrest.
  assert (testcase.calls r4
          = testcase.calls r1 ++ testcase.CallSetUp :: body
            ++ testcase.CallTearDown :: map testcase.CallCleanup rest) as Hr4.
  { rewrite Hrest, Hcalls, <- app_assoc. reflexivity. }
  destruct o as [[]|e| |]; try discriminate; destruct o' as [[]|e'| |];
    exact Hr4.
Qed.

Lemma tearDown_called_after_body_witness :
  exists body rest,
    testcase.calls
      (testcase._wrapped_test_remote
         (sample_code (Raise (OtherError "body failed")) (Return tt)) 3
         sample_run).2
    = testcase.calls sample_run
      ++ testcase.CallSetUp :: body
      ++ testcase.CallTearDown :: map testcase.CallCleanup rest
    /\ ((body = [] /\ Raise (OtherError "body failed") <> Return tt)
        \/ exists name, body = [testcase.CallTest name]).
Proof.
  eapply (tearDown_called_after_body
            (sample_code (Raise (OtherError "body failed")) (Return tt)) 3
            sample_run); reflexivity.
Defined.

(** C4, as the spec words it, fails: the reloads come before the [try], so
    when the reload of a module raises, the run ends with that exception
    and tearDown is not called. *)
Lemma tearDown_skipped_when_reload_raises :
  let r := testcase._wrapped_test_remote sample_code_failing 3
             (testcase.mkRun (sample_test_with_modules ["broken"]) []) in
  r.1 = Raise (OtherError "no reload")
  /\ testcase.calls r.2 = [testcase.CallReload "broken"]
  /\ testcase.CallTearDown ∉ testcase.calls r.2.
Proof.
  cbv zeta. split; [reflexivity|]. split; [reflexivity|].
  cbn. intros Hin. apply list_elem_of_singleton in Hin. discriminate.
Qed.





Example sample_run_tearDown_raises :
  let r := testcase._wrapped_test_remote
             (sample_code (Return tt) (Raise (OtherError "tearDown failed")))
             3 sample_run in
  r.1 = Raise (OtherError "tearDown failed")
  /\ testcase.calls r.2
     = [testcase.CallSetUp; testcase.CallTest "test_it";
        testcase.CallTearDown]
  /\ testcase._cleanups (testcase.self r.2) = ["A"; "B"; "C"].
Proof. repeat split. Qed.

(** The same holds when only the test method raises and tearDown returns:
    there the spec's wording is met. *)
Example sample_run_body_raises :
  runs_all_cleanups_lifo
    (sample_code (Raise (OtherError "body failed")) (Return tt)) 3 sample_run.
Proof.
  intros r1 o r2 o' r3 H1 H2 _ H3 _.
  cbn in H1. injection H1 as <-.
  cbn in H2. injection H2 as <- <-.
  cbn in H3. injection H3 as <- <-.
  reflexivity.
Qed.

(** ** Further properties *)

(** *** The remote run: reloads *)

Section RemoteRunMore.

Context {U Cleanup Module_ : Type}.
Implicit Types (code : testcase.UserCode U Cleanup Module_).
Implicit Types (r : testcase.Run U Cleanup Module_).



(** *** The remote run: cleanups *)

(** Cleanups that behave are popped and called from the end of the list,
    whatever lies before them. *)
Lemma cleanup_loop_suffix code cs :
  (forall c, c ∈ cs -> well_behaved code c) ->
  forall pre fuel r,
    testcase._cleanups (testcase.self r) = pre ++ cs ->
    exists r',
      testcase.cleanup_loop code (length cs + fuel) r
      = testcase.cleanup_loop code fuel r'
      /\ testcase.calls r'
         = testcase.calls r ++ map testcase.CallCleanup (rev cs)
      /\ testcase._cleanups (testcase.self r') = pre.
Proof.
  induction cs as [|c cs IH] using rev_ind; intros Hwb pre fuel r Hcs.
  - exists r. cbn. rewrite app_nil_r in Hcs |- *. auto.
  - rewrite length_app, Nat.add_comm in |- *. cbn [length Nat.add].
    replace (fuel + (length cs + 1)) with (S (length cs + fuel)) by lia.
    cbn. rewrite Hcs, app_assoc, last_snoc, removelast_last.
    unfold bind, modify, testcase.invoke. cbn.
    destruct (Hwb c ltac:(set_solver)
                (testcase.set_cleanups (pre ++ cs) (testcase.self r)))
      as (s' & -> & Hs').
    destruct (IH ltac:(intros; apply Hwb; set_solver) pre fuel
                (testcase.mkRun s' (testcase.calls r ++ [testcase.CallCleanup c])))
      as (r' & -> & Hcalls & Hpre); [exact Hs'|].
    exists r'. split; [reflexivity|]. split; [|exact Hpre].
    rewrite Hcalls, rev_unit. cbn. by rewrite <- app_assoc.
Qed.

(** X2: a cleanup that does not return stops the loop.  With the cleanups
    [pre ++ c :: cs] registered, [cs] behaving and [c] ending in [o] (an
    exception, say), the run calls [cs] last-registered first, then [c], and
    ends in [o]: the cleanups [pre] registered before [c] are not called and
    stay registered. *)
Theorem failing_cleanup_stops_loop code pre c cs (o : outcome unit) fuel r :
  testcase._cleanups (testcase.self r) = pre ++ c :: cs ->
  (forall d, d ∈ cs -> well_behaved code d) ->
  (forall s, exists s',
     testcase.call code c s = (o, s')
     /\ testcase._cleanups s' = testcase._cleanups s) ->
  o <> Return tt ->
  length cs < fuel ->
  exists r',
    testcase.cleanup_loop code fuel r = (o, r')
    /\ testcase.calls r'
       = testcase.calls r ++ map testcase.CallCleanup (rev cs ++ [c])
    /\ testcase._cleanups (testcase.self r') = pre.
Proof.
  intros Hcs Hwb Hbad Ho Hfuel.
  destruct (cleanup_loop_suffix code cs Hwb (pre ++ [c])
              (fuel - length cs) r) as (r1 & Heq & Hcalls & Hpre).
  { rewrite Hcs, <- app_assoc. reflexivity. }
  replace (length cs + (fuel - length cs)) with fuel in Heq by lia.
  rewrite Heq.
  destruct (fuel - length cs) as [|fuel'] eqn:Hrest; [lia|].
  cbn. rewrite Hpre, last_snoc, removelast_last.
  unfold bind, modify, testcase.invoke. cbn.
  destruct (Hbad (testcase.set_cleanups pre (testcase.self r1)))
    as (s' & -> & Hs').
  exists (testcase.mkRun s' (testcase.calls r1 ++ [testcase.CallCleanup c])).
  split; [|split].
  - destruct o as [[]|e| |]; try reflexivity. congruence.
  - cbn. rewrite Hcalls, map_app, <- app_assoc. reflexivity.
  - exact Hs'.
Qed.

(** The loop returns only when no cleanup is left. *)
Lemma cleanup_loop_returns_drained code fuel r r' :
  testcase.cleanup_loop code fuel r = (Return tt, r') ->
  testcase._cleanups (testcase.self r') = [].
Proof.
  revert r. induction fuel as [|fuel IH]; intros r; cbn.
  - destruct (last _) eqn:Hlast; [discriminate|].
    intros [= <-]. by apply last_None.
  - destruct (last _) as [c|] eqn:Hlast;
      [|intros [= <-]; by apply last_None].
    unfold bind, modify, testcase.invoke. cbn.
    destruct (testcase.call code c _) as [[[]|e| |] s']; try discriminate.
    apply IH.
Qed.

(** X3: a run that returns normally has left no cleanup registered,
    whatever the user's code does (cleanups that register cleanups
    included). *)
Theorem normal_return_drains_cleanups code fuel r r' :
  testcase._wrapped_test_remote code fuel r = (Return tt, r') ->
  testcase._cleanups (testcase.self r') = [].
Proof.
  unfold testcase._wrapped_test_remote, bind at 1, gets.
  unfold bind at 1.
  destruct (testcase.reload_loop code _ r) as [[[]|e| |] r1];
    try discriminate.
  unfold try_finally.
  destruct (testcase.try_block code r1) as [[[]|e| |] r2]; try discriminate.
  - unfold bind.
    destruct (testcase.invoke testcase.CallTearDown _ r2)
      as [[[]|e| |] r3]; try discriminate.
    destruct (testcase.cleanup_loop code fuel r3)
      as [[[]|e| |] r4] eqn:Hloop; try discriminate.
    intros [= <-]. eapply cleanup_loop_returns_drained; eassumption.
  - destruct ((_ ;; _) r2) as [[[]|e'| |] r4]; discriminate.
Qed.

End RemoteRunMore.


Lemma failing_cleanup_stops_loop_witness :
  exists r',
    testcase.cleanup_loop sample_code_failing 3
      (testcase.mkRun
         (testcase.set_cleanups ["A"; "B"; "C"] (sample_test_with_modules []))
         [])
    = (Raise (OtherError "B failed"), r')
    /\ testcase.calls r' = [testcase.CallCleanup "C"; testcase.CallCleanup "B"]
    /\ testcase._cleanups (testcase.self r') = ["A"].
Proof.
  apply (failing_cleanup_stops_loop sample_code_failing ["A"] "B" ["C"]
           (Raise (OtherError "B failed")) 3
           (testcase.mkRun
              (testcase.set_cleanups ["A"; "B"; "C"]
                 (sample_test_with_modules [])) [])).
  - reflexivity.
  - intros d Hd s. apply list_elem_of_singleton in Hd as ->. by exists s.
  - intros s. by exists s.
  - discriminate.
  - cbn. lia.
Defined.

Lemma normal_return_drains_cleanups_witness :
  testcase._cleanups
    (testcase.self
       (testcase._wrapped_test_remote (sample_code (Return tt) (Return tt)) 3
          sample_run).2) = [].
Proof.
  apply (normal_return_drains_cleanups (sample_code (Return tt) (Return tt))
           3 sample_run). reflexivity.
Defined.

(** *** The request: alias and method name *)

(** X4: the alias under which the fragment imports the test module has no
    dot, has the length of the module name, and is the module name itself
    when that has no dot. *)
Theorem alias_has_no_dot (module_ : string) :
  let alias := replace "." "_" module_ in
  ("."%char ∉ list_ascii_of_string alias)
  /\ String.length alias = String.length module_
  /\ (("."%char ∉ list_ascii_of_string module_) -> alias = module_).
Proof.
  cbv zeta. induction module_ as [|c m (IH1 & IH2 & IH3)]; cbn.
  - repeat split; auto. apply not_elem_of_nil.
  - destruct (Ascii.eqb_spec c ".") as [->|Hc].
    + split; [|split].
      * apply not_elem_of_cons. split; [discriminate | exact IH1].
      * by rewrite IH2.
      * intros Hdot. exfalso. apply Hdot. left.
    + split; [|split].
      * apply not_elem_of_cons. split; [congruence | exact IH1].
      * by rewrite IH2.
      * intros Hdot. rewrite IH3; [reflexivity|].
        intros Hin. apply Hdot. by right.
Qed.

(** X5: [_wrapped_test] sends exactly one request and changes no attribute.
    The method name in the fragment is the private attribute
    [__testMethodName], not [_testMethodName]: called before [run] has set
    it, the fragment instantiates the test case with the name None. *)
Theorem wrapped_test_direct_uses_private_name {U Cleanup Module_ : Type}
    host client (self : testcase.TestCaseObj U Cleanup Module_) w :
  let r := testcase._wrapped_test host client (self, w) in
  let name :=
    match testcase._RemoteTestCase__testMethodName self with
    | Some name => name
    | None => "None"
    end in
  let code :=
    remote_fragment (testcase.__module__ self) (testcase.__name__ self)
      (testcase.reload_test self) name in
  r.2 = (self, mkWorld (os_environ w) (dicts w) (handshakers w)
                 (next_socket w) (next_pid w) (trace w ++ [EvExec code]))
  /\ r.1 = exec_reply host (trace w) code.
Proof.
  cbv zeta.
  unfold testcase._wrapped_test, testcase.on_world, testcase.exec_, log,
    bind, ret, raise, modify, gets.
  destruct self as [m n b mods name name' cs u].
  cbn -[format join].
  match goal with
  | |- context [format ?t ?a ?k] =>
      replace (format t a k)
        with (Some (remote_fragment m n b (testcase.str name')))
        by (symmetry; destruct b;
            [exact (format_fragment m n (testcase.str name') true)
            |exact (format_fragment m n (testcase.str name') false)])
  end.
  cbn. split; reflexivity.
Qed.

(** *** Obtaining the client *)

Section GetClient.

Context {U Cleanup Module_ : Type}.
Implicit Types (d : RemoteTestCase.Driver U Cleanup Module_).
Implicit Types (create : M World testcase.Client).

(** X6: with [cache_client] on and no client cached, a call that creates the
    client [c] stores it, and the next call returns the same client without
    creating another: the world after the two calls is the world after the
    one creation. *)
Theorem get_client_creates_once create d c w' :
  RemoteTestCase.cache_client (RemoteTestCase.cls d) = true ->
  RemoteTestCase._cached_client (RemoteTestCase.cls d) = None ->
  create (RemoteTestCase.world d) = (Return c, w') ->
  (c1 <- RemoteTestCase._get_client create ;;
   c2 <- RemoteTestCase._get_client create ;;
   ret (c1, c2)) d
  = (Return (c, c),
     RemoteTestCase.mkDriver (RemoteTestCase.this d)
       (RemoteTestCase.mkClassAttrs true (Some c))
       (RemoteTestCase.stderr d) w').
Proof.
  destruct d as [self [cache cached] err w]. cbn.
  intros -> -> Hcreate.
  unfold RemoteTestCase._get_client, RemoteTestCase.in_world, bind, ret,
    modify, gets.
  cbn. rewrite Hcreate. reflexivity.
Qed.

(** X7: what [_get_client] does to the cache.  It never changes
    [cache_client]; it changes [_cached_client] only from None to the
    client it returns, and only with [cache_client] on; with [cache_client]
    on, a returned client is the cached one; and a call that does not
    return a client leaves the cache as it was. *)
Theorem get_client_cache_invariant create d :
  let r := RemoteTestCase._get_client create d in
  let before := RemoteTestCase.cls d in
  let after := RemoteTestCase.cls r.2 in
  RemoteTestCase.cache_client after = RemoteTestCase.cache_client before
  /\ (after = before
      \/ (RemoteTestCase.cache_client before = true
          /\ RemoteTestCase._cached_client before = None))
  /\ match r.1 with
     | Return c =>
         if RemoteTestCase.cache_client before
         then RemoteTestCase._cached_client after = Some c
         else after = before
     | _ => after = before
     end
  /\ RemoteTestCase.this r.2 = RemoteTestCase.this d
  /\ RemoteTestCase.stderr r.2 = RemoteTestCase.stderr d.
Proof.
  cbv zeta.
  unfold RemoteTestCase._get_client, RemoteTestCase.in_world, bind, ret,
    modify, gets.
  destruct d as [self [cache cached] err w]. cbn.
  destruct cache; cbn.
  - destruct cached as [c|]; cbn; [auto 10|].
    destruct (create w) as [[c|e| |] w1]; cbn; auto 10.
  - destruct (create w) as [[c|e| |] w1]; cbn; auto 10.
Qed.

(** X8: when the client cannot be obtained, [run] re-raises what
    [create_client] raised.  If that is an [Exception], [sys.stderr] first
    receives the notice, the name of the test as [Class.method] and the
    traceback; if it is not (KeyboardInterrupt, SystemExit), nothing is
    written.  Either way [unittest.TestCase.run] is not reached: the test
    case object is untouched and the world is as [create_client] left
    it. *)
Theorem run_reports_client_failure host create
    (TestCase_run :
       M (testcase.TestCaseObj U Cleanup Module_ * World) unit ->
       M (testcase.TestCaseObj U Cleanup Module_ * World) unit ->
       M (testcase.TestCaseObj U Cleanup Module_ * World) unit ->
       M (testcase.TestCaseObj U Cleanup Module_ * World) unit)
    d e w' :
  RemoteTestCase.cache_client (RemoteTestCase.cls d) = false
  \/ RemoteTestCase._cached_client (RemoteTestCase.cls d) = None ->
  create (RemoteTestCase.world d) = (Raise e, w') ->
  RemoteTestCase.run host create TestCase_run d
  = (Raise e,
     RemoteTestCase.mkDriver (RemoteTestCase.this d) (RemoteTestCase.cls d)
       (RemoteTestCase.stderr d
        ++ (if is_Exception e
            then [RemoteTestCase.Text
                    ("Critical failure creating client for test:" +:+ LF);
                  RemoteTestCase.Text
                    (testcase.__name__ (RemoteTestCase.this d) +:+ "."
                     +:+ testcase.str
                           (testcase._testMethodName (RemoteTestCase.this d)));
                  RemoteTestCase.Traceback e]
            else []))
       w').
Proof.
  intros Hcache Hcreate.
  unfold RemoteTestCase.run, RemoteTestCase._get_client,
    RemoteTestCase.in_world, RemoteTestCase.stderr_write, bind, ret, raise,
    modify, gets.
  destruct d as [self [cache cached] err w]. cbn in *.
  destruct cache; cbn.
  - destruct Hcache as [Hcache|Hcache]; [discriminate|]. subst cached.
    cbn. rewrite Hcreate. cbn.
    destruct (is_Exception e); cbn; rewrite <- ?app_assoc, ?app_nil_r;
      reflexivity.
  - rewrite Hcreate. cbn.
    destruct (is_Exception e); cbn; rewrite <- ?app_assoc, ?app_nil_r;
      reflexivity.
Qed.

End GetClient.

Lemma get_client_creates_once_witness :
  (c1 <- RemoteTestCase._get_client
           (testcase.Client__init__ (testcase.client_proc sample_client)) ;;
   c2 <- RemoteTestCase._get_client
           (testcase.Client__init__ (testcase.client_proc sample_client)) ;;
   ret (c1, c2)) (sample_driver true None)
  = (Return (sample_client, sample_client),
     RemoteTestCase.mkDriver sample_test
       (RemoteTestCase.mkClassAttrs true (Some sample_client)) []
       (mkWorld (os_environ sample_world) [] [] 0 0
          [EvConnect (Some "tcp://127.0.0.1:6000")])).
Proof.
  apply (get_client_creates_once
           (testcase.Client__init__ (testcase.client_proc sample_client))
           (sample_driver true None) sample_client);
    reflexivity.
Defined.

Lemma run_reports_client_failure_witness :
  RemoteTestCase.run sample_host
    (testcase.create_client common.namespace sample_host
       (testcase.mkClass None true))
    (fun _ test _ => test) (sample_driver true None)
  = (Raise (RuntimeError
              "config must be set or this method must be overridden."),
     RemoteTestCase.mkDriver sample_test
       (RemoteTestCase.mkClassAttrs true None)
       [RemoteTestCase.Text
          ("Critical failure creating client for test:" +:+ LF);
        RemoteTestCase.Text "SceneTest.test_it";
        RemoteTestCase.Traceback
          (RuntimeError
             "config must be set or this method must be overridden.")]
       sample_world)
  /\ (RemoteTestCase.run sample_host (raise KeyboardInterrupt)
        (fun _ test _ => test) (sample_driver true None)
      = (Raise KeyboardInterrupt, sample_driver true None)).
Proof.
  split.
  - apply (run_reports_client_failure sample_host
             (testcase.create_client common.namespace sample_host
                (testcase.mkClass None true))
             (fun _ test _ => test) (sample_driver true None)
             (RuntimeError
                "config must be set or this method must be overridden.")
             sample_world); [right|]; reflexivity.
  - apply (run_reports_client_failure sample_host (raise KeyboardInterrupt)
             (fun _ test _ => test) (sample_driver true None)
             KeyboardInterrupt sample_world); [right|]; reflexivity.
Defined.

(** *** The handshake *)

Lemma exit_awaits_endpoint_witness :
  let r := bootstrap.Handshaker.__exit__ sample_host 0 None
             sample_world_waiting in
  r.1 = Return false
  /\ trace r.2
     = trace sample_world_waiting
       ++ [EvRecv 0 "tcp://127.0.0.1:6000"; EvSend 0 ""; EvClose 0]
  /\ app_endpoint <$> handshakers r.2 !! 0
     = Some (Some "tcp://127.0.0.1:6000").
Proof.
  apply (exit_awaits_endpoint sample_host 0 sample_world_waiting
           (mkHandshaker sample_config (DictAt 0)
              (Some (utils.mkSocketInfo 0 "tcp://127.0.0.1:5000")) None)
           (utils.mkSocketInfo 0 "tcp://127.0.0.1:5000")
           "tcp://127.0.0.1:6000"); reflexivity.
Defined.

(** *** The launch, for any contents of [common] *)

(** X10: whatever [common] binds and however the launch ends, it spawns at
    most one child, and the registration of the child's kill is the very
    next thing it does: before any message is awaited on the socket, and
    with no other spawn or registration in the same launch. *)
Theorem launch_registers_kill_right_after_spawn
    (common : gmap string pyval) host config w :
  let r := bootstrap.start_server_process common host config w in
  let pid := next_pid w in
  exists new,
    trace r.2 = trace w ++ new
    /\ ((spawned new = [] /\ atexit_kills new = [])
        \/ exists before env after,
             new = before
                   ++ EvPopen pid (popen_args config) env
                      :: EvAtexitKill pid :: after
             /\ spawned before = [] /\ atexit_kills before = []
             /\ spawned after = [] /\ atexit_kills after = []
             /\ (forall s msg, EvRecv s msg ∉ before)).
Proof.
  destruct w as [env ds hs s pid tr]. cbv zeta.
  rewrite start_server_process_eval. cbv zeta. cbn [next_pid trace].
  destruct (common !! "ENV_HANDSHAKE_ENDPOINT") as [k1|];
    [|eexists; split; [reflexivity | left; split; reflexivity]].
  destruct (common !! "ENV_CONFIGNAME") as [k2|];
    [|eexists; split; [reflexivity | left; split; reflexivity]].
  destruct (popen_error _ _ _) as [e|];
    [eexists; split; [reflexivity | left; split; reflexivity]|].
  assert (forall s' msg,
            EvRecv s' msg ∉ [EvBind s (ephemeral_address host s)]) as Hrecv.
  { intros s' msg Hin. apply list_elem_of_singleton in Hin. discriminate. }
  destruct (arrives _ _ _) as [msg|]; cbn [fst snd trace].
  - rewrite <- app_assoc. eexists. split; [reflexivity|]. right.
    exists [EvBind s (ephemeral_address host s)]. eexists.
    exists [EvRecv s msg; EvSend s ""; EvClose s].
    split; [reflexivity|]. repeat split; auto.
  - eexists. split; [reflexivity|]. right.
    exists [EvBind s (ephemeral_address host s)]. eexists. exists [].
    split; [reflexivity|]. repeat split; auto.
Qed.

(** X11: when [common] binds the two names and the spawn succeeds, the child
    is started with the configuration's arguments and with the entries of
    the copy: the driver's environment, then the handshake address under
    the first name, the configuration's name under the second, and
    PYTHONPATH.  Every other variable reaches the child as the driver has
    it, and PYTHONPATH is the driver's (empty when unset) followed by the
    two parent directories, joined by the path separator. *)
Theorem child_environment (common : gmap string pyval) host config w k1 k2 :
  common !! "ENV_HANDSHAKE_ENDPOINT" = Some k1 ->
  common !! "ENV_CONFIGNAME" = Some k2 ->
  let r := bootstrap.start_server_process common host config w in
  let addr := ephemeral_address host (next_socket w) in
  let env2 := <[k2:=cfgname config]> (<[k1:=addr]> (os_environ w)) in
  let env := <[PyStr "PYTHONPATH":=pythonpath_entry host env2]> env2 in
  popen_error host (popen_args config) env = None ->
  spawned (trace r.2)
  = spawned (trace w) ++ [(next_pid w, popen_args config, env)]
  /\ env !! k2 = (if decide (k2 = PyStr "PYTHONPATH")
                  then Some (pythonpath_entry host env2)
                  else Some (cfgname config))
  /\ (k1 <> k2 -> k1 <> PyStr "PYTHONPATH" -> env !! k1 = Some addr)
  /\ (k1 <> PyStr "PYTHONPATH" -> k2 <> PyStr "PYTHONPATH" ->
      env !! PyStr "PYTHONPATH"
      = Some (default "" (os_environ w !! PyStr "PYTHONPATH")
              +:+ pathsep host
              +:+ bootstrap._one_up_dir host (bootstrap_file host)
              +:+ pathsep host
              +:+ bootstrap._one_up_dir host (zmq_file host)))
  /\ (forall key, key <> k1 -> key <> k2 -> key <> PyStr "PYTHONPATH" ->
                  env !! key = os_environ w !! key).
Proof.
  intros Hk1 Hk2 r addr env2 env Hspawn.
  split; [|split; [|split; [|split]]].
  - subst r. destruct w as [env0 ds hs s pid tr].
    rewrite start_server_process_eval, Hk1, Hk2. cbv zeta.
    cbn [os_environ next_socket] in *. fold addr env2 env.
    rewrite Hspawn. cbn [next_pid].
    assert (forall tr1 tr2, spawned (tr1 ++ tr2) = spawned tr1 ++ spawned tr2)
      as Happ by (intros; apply omap_app).
    destruct (arrives _ _ _); cbn [snd trace]; rewrite !Happ; cbn;
      rewrite ?app_nil_r; reflexivity.
  - subst env. case_decide as Hpp.
    + rewrite Hpp. by rewrite lookup_insert_eq.
    + rewrite lookup_insert_ne by congruence. subst env2.
      by rewrite lookup_insert_eq.
  - intros H12 H1p. subst env env2.
    rewrite lookup_insert_ne by congruence.
    rewrite lookup_insert_ne by congruence.
    by rewrite lookup_insert_eq.
  - intros H1p H2p. subst env. rewrite lookup_insert_eq.
    unfold pythonpath_entry. subst env2.
    rewrite lookup_insert_ne by congruence.
    rewrite lookup_insert_ne by congruence. reflexivity.
  - intros key H1 H2 Hp. subst env env2.
    rewrite !lookup_insert_ne by congruence. reflexivity.
Qed.

Lemma child_environment_witness :
  let r := bootstrap.start_server_process common_with_endpoint_key
             sample_host sample_config sample_world in
  length (spawned (trace r.2)) = 1
  /\ forall key,
       key <> PyStr "DCCAUTO_HANDSHAKE" -> key <> PyStr "DCCAUTO_CONFIGNAME" ->
       key <> PyStr "PYTHONPATH" ->
       (spawned (trace r.2)).*2 !! 0 ≫= (.!! key)
       = os_environ sample_world !! key.
Proof.
  destruct (child_environment common_with_endpoint_key sample_host
              sample_config sample_world
              (PyStr "DCCAUTO_HANDSHAKE") (PyStr "DCCAUTO_CONFIGNAME")
              eq_refl eq_refl eq_refl) as (Hspawned & _ & _ & _ & Hframe).
  cbv zeta. rewrite Hspawned. split; [reflexivity|].
  intros key H1 H2 H3. cbn. by apply Hframe.
Defined.

(** X14: [create_client] returns a client only at the end of a completed
    launch: [config] is set and instantiated, [start_proc] is true, the
    child was spawned and has reported, and the client is connected, last
    of all, to the endpoint the child reported.  A call that ends otherwise
    connects no client. *)
Theorem create_client_connects_to_reported_endpoint
    (common : gmap string pyval) host cls w :
  let r := testcase.create_client common host cls w in
  let s := next_socket w in
  let pid := next_pid w in
  match r.1 with
  | Return client =>
      exists cfg env msg,
        testcase.config cls = Some (Return cfg)
        /\ testcase.start_proc cls = true
        /\ client = testcase.mkClient
                      (bootstrap.mkServerProc pid (Some msg) cfg)
        /\ trace r.2
           = trace w
             ++ [EvBind s (ephemeral_address host s);
                 EvPopen pid (popen_args cfg) env; EvAtexitKill pid;
                 EvRecv s msg; EvSend s ""; EvClose s;
                 EvConnect (Some msg)]
  | _ => connects (trace r.2) = connects (trace w)
  end.
Proof.
  cbv zeta. unfold testcase.create_client.
  destruct (testcase.config cls) as [[cfg|e| |]|]; try reflexivity.
  destruct (testcase.start_proc cls); [|reflexivity].
  destruct w as [env0 ds hs s pid tr].
  unfold bind, ret, testcase.Client__init__, log, modify.
  rewrite start_server_process_eval. cbv zeta.
  assert (forall tr1 tr2, connects (tr1 ++ tr2) = connects tr1 ++ connects tr2)
    as Happ by (intros; apply omap_app).
  destruct (common !! "ENV_HANDSHAKE_ENDPOINT") as [k1|];
    [|cbn; rewrite Happ; cbn; by rewrite app_nil_r].
  destruct (common !! "ENV_CONFIGNAME") as [k2|];
    [|cbn; rewrite Happ; cbn; by rewrite app_nil_r].
  destruct (popen_error _ _ _) as [e|];
    [cbn; rewrite Happ; cbn; by rewrite app_nil_r|].
  destruct (arrives _ _ _) as [msg|];
    [|cbn; rewrite Happ; cbn; by rewrite app_nil_r].
  cbn. eexists cfg, _, msg. repeat split.
  rewrite <- !app_assoc. reflexivity.
Qed.

(** *** Parent directories *)

Lemma list_ascii_of_append (a b : string) :
  list_ascii_of_string (a +:+ b)
  = list_ascii_of_string a ++ list_ascii_of_string b.
Proof.
  induction a as [|c a IH]; [reflexivity|].
  change (c :: list_ascii_of_string (a +:+ b)
          = c :: (list_ascii_of_string a ++ list_ascii_of_string b)).
  by rewrite IH.
Qed.

Lemma skip_while_app p (l1 l2 : list ascii) :
  Forall (fun c => p c = true) l1 ->
  skip_while p (l1 ++ l2) = skip_while p l2.
Proof.
  induction 1 as [|c l1 Hc _ IH]; [reflexivity|]. cbn. by rewrite Hc.
Qed.

Lemma no_slash_forall (l : list ascii) :
  "/"%char ∉ l -> Forall (fun c => negb (is_slash c) = true) l.
Proof.
  intros Hl. apply Forall_forall. intros c Hc. unfold is_slash.
  destruct (Ascii.eqb_spec c "/") as [->|]; [contradiction | reflexivity].
Qed.

(** [posixpath.dirname] of [dir/name], for a [dir] that ends in a character
    other than the slash and a [name] without slash, is [dir]. *)
Lemma posixpath_dirname_join (dir : list ascii) (c : ascii)
    (name : list ascii) :
  c <> "/"%char -> "/"%char ∉ name ->
  posixpath_dirname
    (string_of_list_ascii (dir ++ c :: "/"%char :: name))
  = string_of_list_ascii (dir ++ [c]).
Proof.
  intros Hc Hname. unfold posixpath_dirname.
  rewrite list_ascii_of_string_of_list_ascii.
  replace (dir ++ c :: "/"%char :: name)
    with ((dir ++ [c]) ++ "/"%char :: name)
    by (by rewrite <- app_assoc).
  rewrite rev_app_distr. cbn [rev]. rewrite <- app_assoc. cbn [app].
  rewrite skip_while_app
    by (apply no_slash_forall; intros Hin; apply Hname;
        apply list_elem_of_In, in_rev, list_elem_of_In, Hin).
  rewrite rev_unit. cbn.
  assert (is_slash c = false) as Hslash.
  { unfold is_slash. by destruct (Ascii.eqb_spec c "/"). }
  rewrite Hslash. cbn.
  by rewrite rev_involutive.
Qed.

(** [posixpath.dirname] of a name without slash is empty. *)
Lemma posixpath_dirname_bare (name : list ascii) :
  "/"%char ∉ name -> posixpath_dirname (string_of_list_ascii name) = "".
Proof.
  intros Hname. unfold posixpath_dirname.
  rewrite list_ascii_of_string_of_list_ascii.
  rewrite <- (app_nil_r (rev name)).
  rewrite skip_while_app; [reflexivity|].
  apply no_slash_forall. intros Hin. apply Hname.
  apply list_elem_of_In, in_rev, list_elem_of_In, Hin.
Qed.

Lemma last_char_split (s : string) :
  s <> "" ->
  exists l c, list_ascii_of_string s = l ++ [c].
Proof.
  intros Hs. destruct (list_ascii_of_string s) as [|a l] eqn:Hl.
  - destruct s; [congruence | discriminate].
  - destruct (exists_last (l:=a :: l)) as (l' & c & ->); [discriminate|].
    by exists l', c.
Qed.

(** X12: on a POSIX host, [_one_up_dir] of [dir/package/file] is [dir],
    for names [package] (not empty) and [file] without slash and a [dir]
    that is not empty and does not end in a slash. *)
Theorem one_up_dir_of_package_file host (dir package file : string) :
  dirname host = posixpath_dirname ->
  dir <> "" ->
  last (list_ascii_of_string dir) <> Some "/"%char ->
  package <> "" ->
  ("/"%char ∉ list_ascii_of_string package) ->
  ("/"%char ∉ list_ascii_of_string file) ->
  bootstrap._one_up_dir host (dir +:+ "/" +:+ package +:+ "/" +:+ file) = dir.
Proof.
  intros Hhost Hdir Hlast Hpkg Hnp Hnf. unfold bootstrap._one_up_dir.
  rewrite Hhost.
  destruct (last_char_split dir Hdir) as (d & c & Hd).
  destruct (last_char_split package Hpkg) as (p & c' & Hp).
  assert (c <> "/"%char) as Hc.
  { intros ->. apply Hlast. rewrite Hd. apply last_snoc. }
  assert (c' <> "/"%char /\ "/"%char ∉ p) as [Hc' Hp'].
  { rewrite Hp in Hnp. split.
    - intros ->. apply Hnp. set_solver.
    - intros Hin. apply Hnp. set_solver. }
  rewrite <- (string_of_list_ascii_of_string
                (dir +:+ "/" +:+ package +:+ "/" +:+ file)).
  rewrite !list_ascii_of_append, Hd, Hp.
  replace ((d ++ [c]) ++ list_ascii_of_string "/" ++ (p ++ [c'])
           ++ list_ascii_of_string "/" ++ list_ascii_of_string file)
    with ((d ++ c :: "/"%char :: p) ++ c' :: "/"%char
          :: list_ascii_of_string file)
    by (cbn; rewrite <- !app_assoc; reflexivity).
  rewrite posixpath_dirname_join by assumption.
  replace ((d ++ c :: "/"%char :: p) ++ [c'])
    with (d ++ c :: "/"%char :: (p ++ [c']))
    by (rewrite <- !app_assoc; reflexivity).
  rewrite posixpath_dirname_join; [|assumption|].
  - rewrite <- Hd. apply string_of_list_ascii_of_string.
  - rewrite <- Hp. exact Hnp.
Qed.

Lemma one_up_dir_of_package_file_witness :
  bootstrap._one_up_dir sample_host
    ("/opt/tools" +:+ "/" +:+ "dccautomation" +:+ "/" +:+ "bootstrap.py")
  = "/opt/tools".
Proof.
  apply (one_up_dir_of_package_file sample_host "/opt/tools" "dccautomation"
           "bootstrap.py");
    first [reflexivity | discriminate
          | apply (bool_decide_unpack _); reflexivity].
Defined.

(** X13: on a POSIX host, [_one_up_dir] of a relative [package/file], or of
    a bare [file], is the empty string. *)
Theorem one_up_dir_of_relative_file host (package file : string) :
  dirname host = posixpath_dirname ->
  ("/"%char ∉ list_ascii_of_string package) ->
  ("/"%char ∉ list_ascii_of_string file) ->
  package <> "" ->
  bootstrap._one_up_dir host (package +:+ "/" +:+ file) = ""
  /\ bootstrap._one_up_dir host file = "".
Proof.
  intros Hhost Hnp Hnf Hpkg. unfold bootstrap._one_up_dir. rewrite Hhost.
  assert (posixpath_dirname "" = "") as Hempty by reflexivity.
  split.
  - destruct (last_char_split package Hpkg) as (p & c' & Hp).
    assert (c' <> "/"%char) as Hc'.
    { intros ->. apply Hnp. rewrite Hp. set_solver. }
    rewrite <- (string_of_list_ascii_of_string (package +:+ "/" +:+ file)).
    rewrite !list_ascii_of_append, Hp.
    replace ((p ++ [c']) ++ list_ascii_of_string "/"
             ++ list_ascii_of_string file)
      with (p ++ c' :: "/"%char :: list_ascii_of_string file)
      by (cbn; rewrite <- !app_assoc; reflexivity).
    rewrite posixpath_dirname_join by assumption.
    rewrite <- Hp. rewrite posixpath_dirname_bare by exact Hnp.
    reflexivity.
  - rewrite <- (string_of_list_ascii_of_string file).
    rewrite posixpath_dirname_bare by exact Hnf. exact Hempty.
Qed.

Lemma one_up_dir_of_relative_file_witness :
  bootstrap._one_up_dir sample_host ("dccautomation" +:+ "/" +:+ "bootstrap.py")
  = ""
  /\ bootstrap._one_up_dir sample_host "bootstrap.py" = "".
Proof.
  apply (one_up_dir_of_relative_file sample_host "dccautomation"
           "bootstrap.py");
    first [reflexivity | discriminate
          | apply (bool_decide_unpack _); reflexivity].
Defined.
